(** * CompanyCam MCP server: a shallow embedding of [companycam_mcp_server.py]

    The server is a thin client of a remote REST API.  Every tool builds one
    HTTP request, sends it, projects the JSON answer to display text and turns
    any exception into an error text.  The embedding follows the source
    function by function:

    - Python values that travel through the code (JSON answers, request
      parameters) are the inductive [json]; Python's dynamic operations on
      them ([.get], [len], iteration, truthiness, [str], [join]) are total
      functions into an exception monad [result];
    - the process environment (the API token, the local time zone) is the
      record [Env]; the remote service is a function [Net] from requests to
      replies, and every request handed to it is appended to a log, so that
      the number of network calls of a run can be read off;
    - pydantic input models are validators from raw arguments to records.

    Strings are Stdlib strings, one [ascii] per character; text outside ASCII
    is carried as UTF-8, so lengths agree with Python's on ASCII text. *)

From Stdlib Require Import ZArith List String Ascii Bool Lia DecimalString.
Import ListNotations.

Open Scope string_scope.
Open Scope Z_scope.

(** ** Characters and small string helpers *)

Definition nl : string := String "010"%char EmptyString.
Definition dquote : string := String "034"%char EmptyString.
Definition squote : string := String "039"%char EmptyString.
Definition backslash : string := String "092"%char EmptyString.

(** [str(z)] for a Python int. *)
Definition string_of_Z (z : Z) : string := NilZero.string_of_int (Z.to_int z).

(** [len(s)] as an integer. *)
Definition strlen (s : string) : Z := Z.of_nat (String.length s).

(** [s[:n]] for a string. *)
Definition str_prefix (n : nat) (s : string) : string := substring 0 n s.

(** [sub in s]. *)
Fixpoint contains (sub s : string) : bool :=
  prefix sub s ||
  match s with
  | EmptyString => false
  | String _ r => contains sub r
  end.

(** [sep.join(l)] for a list of strings. *)
Definition join (sep : string) (l : list string) : string := String.concat sep l.

(** The characters Python's [str.strip()] removes, within ASCII. *)
Definition is_space (c : ascii) : bool :=
  let n := nat_of_ascii c in
  ((9 <=? n) && (n <=? 13) || (28 <=? n) && (n <=? 32))%nat.

Fixpoint lstrip (s : string) : string :=
  match s with
  | EmptyString => EmptyString
  | String c r => if is_space c then lstrip r else s
  end.

Fixpoint rstrip (s : string) : string :=
  match s with
  | EmptyString => EmptyString
  | String c r =>
      match rstrip r with
      | EmptyString => if is_space c then EmptyString else String c EmptyString
      | r' => String c r'
      end
  end.

Definition strip (s : string) : string := rstrip (lstrip s).

(** What [str_strip_whitespace=True] removes (pydantic trims with Rust's
    [str::trim]), within ASCII: tab to carriage return, and the space. *)
Definition is_trim_space (c : ascii) : bool :=
  let n := nat_of_ascii c in
  ((9 <=? n) && (n <=? 13) || (n =? 32))%nat.

Fixpoint ltrim (s : string) : string :=
  match s with
  | EmptyString => EmptyString
  | String c r => if is_trim_space c then ltrim r else s
  end.

Fixpoint rtrim (s : string) : string :=
  match s with
  | EmptyString => EmptyString
  | String c r =>
      match rtrim r with
      | EmptyString => if is_trim_space c then EmptyString else String c EmptyString
      | r' => String c r'
      end
  end.

Definition trim (s : string) : string := rtrim (ltrim s).

(** [s.replace("Z", "+00:00")]. *)
Fixpoint replace_Z (s : string) : string :=
  match s with
  | EmptyString => EmptyString
  | String c r =>
      if Ascii.eqb c "Z"%char then "+00:00" ++ replace_Z r
      else String c (replace_Z r)
  end.

(** ** JSON values as Python objects

    What [response.json()] returns.  Numbers are the integers; a number with
    a fraction (only photo coordinates carry one) has no counterpart here. *)

#[local] Set Warnings "-register-all".

Inductive json : Type :=
| JNull
| JBool (b : bool)
| JInt (z : Z)
| JStr (s : string)
| JList (l : list json)
| JDict (kv : list (string * json)).

(** A dict keeps its keys in insertion order (iteration and [repr] show it),
    so it is an association list; [lookup] returns the first binding. *)
Fixpoint lookup {A : Type} (k : string) (kv : list (string * A)) : option A :=
  match kv with
  | [] => None
  | (k', v) :: r => if String.eqb k k' then Some v else lookup k r
  end.

(** [d[k] = v]: overwrite in place, or append a new key at the end. *)
Fixpoint dict_set {A : Type} (k : string) (v : A) (kv : list (string * A))
  : list (string * A) :=
  match kv with
  | [] => [(k, v)]
  | (k', v') :: r =>
      if String.eqb k k' then (k, v) :: r else (k', v') :: dict_set k v r
  end.

(** [bool(v)]. *)
Definition truthy (v : json) : bool :=
  match v with
  | JNull => false
  | JBool b => b
  | JInt z => negb (z =? 0)
  | JStr s => negb (String.eqb s EmptyString)
  | JList l => match l with [] => false | _ => true end
  | JDict kv => match kv with [] => false | _ => true end
  end.

(** [a or b]. *)
Definition py_or (a b : json) : json := if truthy a then a else b.

(** [type(v).__name__]. *)
Definition type_name (v : json) : string :=
  match v with
  | JNull => "NoneType"
  | JBool _ => "bool"
  | JInt _ => "int"
  | JStr _ => "str"
  | JList _ => "list"
  | JDict _ => "dict"
  end.

(** *** [repr] and [str]

    [repr] of a string picks the single quote unless the text holds a single
    quote and no double quote; it escapes the backslash, the chosen quote,
    tab, newline and carriage return, and writes the other control characters
    as [\xNN].  Bytes above 127 are passed through (printable text). *)

Definition hex_digit (n : nat) : ascii :=
  nth n ["0"; "1"; "2"; "3"; "4"; "5"; "6"; "7"; "8"; "9";
         "a"; "b"; "c"; "d"; "e"; "f"]%char "0"%char.

Fixpoint repr_chars (q : ascii) (s : string) : string :=
  match s with
  | EmptyString => EmptyString
  | String c r =>
      let n := nat_of_ascii c in
      let rest := repr_chars q r in
      if (n =? 92)%nat then backslash ++ backslash ++ rest
      else if Ascii.eqb c q then backslash ++ String c rest
      else if (n =? 9)%nat then backslash ++ "t" ++ rest
      else if (n =? 10)%nat then backslash ++ "n" ++ rest
      else if (n =? 13)%nat then backslash ++ "r" ++ rest
      else if ((n <? 32) || (n =? 127))%nat then
        backslash ++ "x" ++
        String (hex_digit (n / 16)) (String (hex_digit (n mod 16)) rest)
      else String c rest
  end.

Definition repr_str (s : string) : string :=
  let q := if contains squote s && negb (contains dquote s)
           then "034"%char else "039"%char in
  String q (repr_chars q s ++ String q EmptyString).

Fixpoint py_repr (v : json) : string :=
  match v with
  | JNull => "None"
  | JBool true => "True"
  | JBool false => "False"
  | JInt z => string_of_Z z
  | JStr s => repr_str s
  | JList l => "[" ++ join ", " (map py_repr l) ++ "]"
  | JDict kv =>
      "{" ++ join ", " (map (fun p => repr_str (fst p) ++ ": " ++ py_repr (snd p)) kv)
          ++ "}"
  end.

(** [str(v)], which is also what an f-string field [{v}] inserts. *)
Definition py_str (v : json) : string :=
  match v with
  | JStr s => s
  | _ => py_repr v
  end.

(** ** Exceptions

    The handler tells exceptions apart by class only, so an exception is its
    class and what the handler prints of it: the HTTP status and body text for
    [httpx.HTTPStatusError], [str(e)] for the others.  [ValueError] stands for
    the class and its subclasses ([json.JSONDecodeError] is one);
    [OtherException] carries the name of a class outside these three.  All
    of them are subclasses of [Exception]; what only [BaseException] covers
    (cancellation, interpreter exit) is outside the embedding. *)

Inductive exn : Type :=
| HTTPStatusError (status_code : Z) (text : string)
| TimeoutException (msg : string)
| ValueError (msg : string)
| OtherException (class_name msg : string).

Definition AttributeError : string -> exn := OtherException "AttributeError".
Definition TypeError : string -> exn := OtherException "TypeError".
Definition KeyError : string -> exn := OtherException "KeyError".
Definition OverflowError : string -> exn := OtherException "OverflowError".
Definition OSError : string -> exn := OtherException "OSError".

Inductive result (A : Type) : Type :=
| Ok (a : A)
| Raise (e : exn).

Arguments Ok {A} a.
Arguments Raise {A} e.

Definition rbind {A B : Type} (c : result A) (k : A -> result B) : result B :=
  match c with
  | Ok a => k a
  | Raise e => Raise e
  end.

Declare Scope result_scope.
Delimit Scope result_scope with result.
Notation "x <- c ;; k" := (rbind c (fun x => k))
  (at level 61, c at next level, right associativity) : result_scope.
Open Scope result_scope.

(** Evaluate [f] on each element from left to right and stop at the first
    exception: a [for] loop or a comprehension whose body may raise. *)
Fixpoint rmap {A B : Type} (f : A -> result B) (l : list A) : result (list B) :=
  match l with
  | [] => Ok []
  | a :: r => b <- f a ;; bs <- rmap f r ;; Ok (b :: bs)
  end.

(** ** Dynamic operations on JSON values *)

(** [v.get(k, default)]: only a dict has [get]. *)
Definition py_get (v : json) (k : string) (default : json) : result json :=
  match v with
  | JDict kv =>
      Ok (match lookup k kv with Some x => x | None => default end)
  | _ =>
      Raise (AttributeError
               (squote ++ type_name v ++ squote ++ " object has no attribute 'get'"))
  end.

(** [len(v)]. *)
Definition py_len (v : json) : result Z :=
  match v with
  | JStr s => Ok (strlen s)
  | JList l => Ok (Z.of_nat (List.length l))
  | JDict kv => Ok (Z.of_nat (List.length kv))
  | _ =>
      Raise (TypeError
               ("object of type " ++ squote ++ type_name v ++ squote ++ " has no len()"))
  end.

Fixpoint chars (s : string) : list json :=
  match s with
  | EmptyString => []
  | String c r => JStr (String c EmptyString) :: chars r
  end.

(** [for x in v]: the elements of a list, the keys of a dict, the characters
    of a string. *)
Definition py_iter (v : json) : result (list json) :=
  match v with
  | JList l => Ok l
  | JDict kv => Ok (map (fun p => JStr (fst p)) kv)
  | JStr s => Ok (chars s)
  | _ =>
      Raise (TypeError (squote ++ type_name v ++ squote ++ " object is not iterable"))
  end.

(** [sep.join(items)]: every item must be a [str]. *)
Fixpoint join_items (i : nat) (items : list json) : result (list string) :=
  match items with
  | [] => Ok []
  | JStr s :: r => ss <- join_items (S i) r ;; Ok (s :: ss)
  | v :: _ =>
      Raise (TypeError
               ("sequence item " ++ string_of_Z (Z.of_nat i)
                ++ ": expected str instance, " ++ type_name v ++ " found"))
  end.

Definition py_join (sep : string) (items : list json) : result string :=
  ss <- join_items 0 items ;; Ok (join sep ss).

(** [v[:n]] followed by [str]: the slice of a string or of a list; a dict
    cannot be sliced, a number or [None] cannot be subscripted. *)
Definition py_slice_str (n : nat) (v : json) : result string :=
  match v with
  | JStr s => Ok (str_prefix n s)
  | JList l => Ok (py_str (JList (firstn n l)))
  | JDict _ => Raise (TypeError "unhashable type: 'slice'")
  | _ =>
      Raise (TypeError (squote ++ type_name v ++ squote ++ " object is not subscriptable"))
  end.

(** ** Calendar arithmetic behind [datetime]

    Python's [datetime] uses the proleptic Gregorian calendar.  Days are
    counted from 1970-01-01 (day 0). *)

Definition days_from_civil (y m d : Z) : Z :=
  let y' := if m <=? 2 then y - 1 else y in
  let era := y' / 400 in
  let yoe := y' - era * 400 in
  let mp := if m >? 2 then m - 3 else m + 9 in
  let doy := (153 * mp + 2) / 5 + d - 1 in
  let doe := yoe * 365 + yoe / 4 - yoe / 100 + doy in
  era * 146097 + doe - 719468.

Definition civil_from_days (n : Z) : Z * Z * Z :=
  let z := n + 719468 in
  let era := z / 146097 in
  let doe := z - era * 146097 in
  let yoe := (doe - doe / 1460 + doe / 36524 - doe / 146096) / 365 in
  let doy := doe - (365 * yoe + yoe / 4 - yoe / 100) in
  let mp := (5 * doy + 2) / 153 in
  let d := doy - (153 * mp + 2) / 5 + 1 in
  let m := if mp <? 10 then mp + 3 else mp - 9 in
  let y := yoe + era * 400 in
  (if m <=? 2 then y + 1 else y, m, d).

Definition is_leap (y : Z) : bool :=
  (y mod 4 =? 0) && (negb (y mod 100 =? 0) || (y mod 400 =? 0)).

Definition days_in_month (y m : Z) : Z :=
  if m =? 2 then (if is_leap y then 29 else 28)
  else if (m =? 4) || (m =? 6) || (m =? 9) || (m =? 11) then 30
  else 31.

(** A [datetime] object: the civil fields and [tzinfo], which is [None] for
    a naive value and a fixed offset (seconds east of UTC) otherwise. *)
Record datetime : Type := mk_datetime {
  year : Z; month : Z; day : Z;
  hour : Z; minute : Z; second : Z;
  utcoffset : option Z
}.

(** Seconds from 1970-01-01T00:00:00 to the civil fields, read on the
    clock the fields are written in. *)
Definition civil_seconds (dt : datetime) : Z :=
  days_from_civil (year dt) (month dt) (day dt) * 86400
  + hour dt * 3600 + minute dt * 60 + second dt.

(** Zero padding, as [%m], [%d], [%H], [%M], [%S] print. *)
Definition pad2 (n : Z) : string :=
  if n <? 10 then "0" ++ string_of_Z n else string_of_Z n.

(** [dt.strftime("%Y-%m-%d %H:%M:%S UTC")].  The year is printed without
    padding, as glibc does for [%Y]; this shows only before the year 1000. *)
Definition strftime_utc (dt : datetime) : string :=
  string_of_Z (year dt) ++ "-" ++ pad2 (month dt) ++ "-" ++ pad2 (day dt)
  ++ " " ++ pad2 (hour dt) ++ ":" ++ pad2 (minute dt) ++ ":" ++ pad2 (second dt)
  ++ " UTC".

(** [datetime.fromtimestamp(ts, tz=timezone.utc)] for an integer [ts], as
    CPython does on 64-bit Linux: the value must fit [time_t], [gmtime] must
    be able to hold the year in a C [int], and the year must lie in 1..9999. *)
Definition fromtimestamp_utc (ts : Z) : result datetime :=
  if (ts <? - 2 ^ 63) || (2 ^ 63 <=? ts) then
    Raise (OverflowError "timestamp out of range for platform time_t")
  else
    let days := ts / 86400 in
    let secs := ts mod 86400 in
    let '(y, m, d) := civil_from_days days in
    if (y - 1900 <? - 2 ^ 31) || (2 ^ 31 <=? y - 1900) then
      Raise (OSError "[Errno 75] Value too large for defined data type")
    else if (y <? 1) || (9999 <? y) then
      Raise (ValueError ("year " ++ string_of_Z y ++ " is out of range"))
    else
      Ok (mk_datetime y m d (secs / 3600) (secs mod 3600 / 60) (secs mod 60) (Some 0)).

(** *** [datetime.fromisoformat]

    The embedding reads the texts [YYYY-MM-DD] and [YYYY-MM-DD?TIME] and
    [YYYY-MM-DD?TIME(+|-)HH:MM[:SS]], where [?] is any one ASCII character
    and [TIME] is [HH], [HH:MM] or [HH:MM:SS].  Every CPython since 3.7
    accepts them.  Fractions of a second and the further ISO 8601 forms of
    later versions are left out: the embedding rejects such a text. *)

Definition digit_val (c : ascii) : option Z :=
  let n := nat_of_ascii c in
  if ((48 <=? n) && (n <=? 57))%nat then Some (Z.of_nat n - 48) else None.

(** The value of the [n] digits at the head of [s] and the rest of [s]. *)
Fixpoint take_digits (n : nat) (acc : Z) (s : string) : option (Z * string) :=
  match n with
  | O => Some (acc, s)
  | S n' =>
      match s with
      | EmptyString => None
      | String c r =>
          match digit_val c with
          | Some d => take_digits n' (acc * 10 + d) r
          | None => None
          end
      end
  end.

Definition take_char (c : ascii) (s : string) : option string :=
  match s with
  | String c' r => if Ascii.eqb c c' then Some r else None
  | EmptyString => None
  end.

Definition obind {A B : Type} (o : option A) (k : A -> option B) : option B :=
  match o with
  | Some a => k a
  | None => None
  end.

(** [YYYY-MM-DD] at the head of [s]. *)
Definition parse_date (s : string) : option (Z * Z * Z * string) :=
  obind (take_digits 4 0 s) (fun '(y, s1) =>
  obind (take_char "-" s1) (fun s2 =>
  obind (take_digits 2 0 s2) (fun '(m, s3) =>
  obind (take_char "-" s3) (fun s4 =>
  obind (take_digits 2 0 s4) (fun '(d, s5) =>
  Some (y, m, d, s5)))))).

(** [HH], [HH:MM] or [HH:MM:SS] at the head of [s]; the number of fields
    read comes with them. *)
Definition parse_hms (s : string) : option (nat * Z * Z * Z * string) :=
  obind (take_digits 2 0 s) (fun '(h, s1) =>
  match take_char ":" s1 with
  | None => Some (1%nat, h, 0, 0, s1)
  | Some s2 =>
      obind (take_digits 2 0 s2) (fun '(mi, s3) =>
      match take_char ":" s3 with
      | None => Some (2%nat, h, mi, 0, s3)
      | Some s4 =>
          obind (take_digits 2 0 s4) (fun '(se, s5) => Some (3%nat, h, mi, se, s5))
      end)
  end).

(** Nothing, or a sign and [HH:MM] or [HH:MM:SS] up to the end of [s]: the
    offset in seconds.  The fields are not range-checked here. *)
Definition parse_offset (s : string) : option (option Z) :=
  match s with
  | EmptyString => Some None
  | String c r =>
      let sign := if Ascii.eqb c "+" then Some 1
                  else if Ascii.eqb c "-" then Some (-1) else None in
      obind sign (fun sg =>
      match parse_hms r with
      | Some (S (S _), h, mi, se, EmptyString) =>
          Some (Some (sg * (h * 3600 + mi * 60 + se)))
      | _ => None
      end)
  end.

Definition invalid_isoformat (s : string) : exn :=
  ValueError ("Invalid isoformat string: " ++ repr_str s).

(** [repr] of a [timedelta] of whole seconds that is not zero. *)
Definition repr_timedelta (secs : Z) : string :=
  let d := secs / 86400 in
  let s := secs mod 86400 in
  "datetime.timedelta("
  ++ (if d =? 0 then EmptyString else "days=" ++ string_of_Z d)
  ++ (if (negb (d =? 0)) && (negb (s =? 0)) then ", " else EmptyString)
  ++ (if s =? 0 then EmptyString else "seconds=" ++ string_of_Z s)
  ++ ")".

(** [timezone(timedelta(seconds=off))]: the offset must be strictly between
    minus and plus 24 hours. *)
Definition check_offset (off : option Z) : result (option Z) :=
  match off with
  | None => Ok None
  | Some o =>
      if (o <=? - 86400) || (86400 <=? o) then
        Raise (ValueError
                 ("offset must be a timedelta strictly between "
                  ++ "-timedelta(hours=24) and timedelta(hours=24), not "
                  ++ repr_timedelta o ++ "."))
      else Ok (Some o)
  end.

(** The range checks of the [datetime] constructor, in its order. *)
Definition check_fields (dt : datetime) : result datetime :=
  if (year dt <? 1) || (9999 <? year dt) then
    Raise (ValueError ("year " ++ string_of_Z (year dt) ++ " is out of range"))
  else if (month dt <? 1) || (12 <? month dt) then
    Raise (ValueError "month must be in 1..12")
  else if (day dt <? 1) || (days_in_month (year dt) (month dt) <? day dt) then
    Raise (ValueError "day is out of range for month")
  else if 23 <? hour dt then Raise (ValueError "hour must be in 0..23")
  else if 59 <? minute dt then Raise (ValueError "minute must be in 0..59")
  else if 59 <? second dt then Raise (ValueError "second must be in 0..59")
  else Ok dt.

Definition fromisoformat (s : string) : result datetime :=
  match parse_date s with
  | None => Raise (invalid_isoformat s)
  | Some (y, m, d, EmptyString) => check_fields (mk_datetime y m d 0 0 0 None)
  | Some (y, m, d, String _ r) =>
      match parse_hms r with
      | None => Raise (invalid_isoformat s)
      | Some (_, h, mi, se, r') =>
          match parse_offset r' with
          | None => Raise (invalid_isoformat s)
          | Some off =>
              tz <- check_offset off ;;
              check_fields (mk_datetime y m d h mi se tz)
          end
      end
  end.

(** ** The process environment

    [API_TOKEN] is read once from the environment when the module is loaded.
    [local_utcoffset] is the time zone the process runs in: the offset from
    UTC, in seconds east, that applies to a given local civil time (given as
    seconds since 1970-01-01T00:00:00 on the local clock). *)

Record Env : Type := mk_Env {
  API_TOKEN : string;
  local_utcoffset : Z -> Z
}.

(** [dt.timestamp()]: an aware value is converted with its own offset, a
    naive value is taken as local time.  The values here carry whole seconds,
    so [int(dt.timestamp())] is the same integer. *)
Definition timestamp (env : Env) (dt : datetime) : Z :=
  match utcoffset dt with
  | Some off => civil_seconds dt - off
  | None => civil_seconds dt - local_utcoffset env (civil_seconds dt)
  end.

(** ** The remote service and the request log

    A tool talks to the service through [httpx]: one request, one reply.  The
    reply is either a response (status, body text, and the body parsed as
    JSON when it is JSON) or an exception raised by the client (a timeout, a
    connection fault).  [Net] is the service seen from the client. *)

Inductive method : Type := GET | POST | PUT.

Record request : Type := mk_request {
  req_method : method;
  req_url : string;
  req_headers : list (string * string);
  req_params : list (string * json);
  req_json : option json
}.

Inductive body : Type :=
| JsonBody (v : json)
| NotJson (decode_error : string).

Inductive reply : Type :=
| Response (status_code : Z) (text : string) (content : body)
| Fault (e : exn).

Definition Net : Type := request -> reply.

(** A computation that may send requests and may raise: it maps the log of
    requests sent so far to its outcome and the log after it. *)
Definition M (A : Type) : Type := list request -> result A * list request.

Definition mret {A : Type} (a : A) : M A := fun log => (Ok a, log).

Definition mbind {A B : Type} (c : M A) (k : A -> M B) : M B :=
  fun log =>
    match c log with
    | (Ok a, log') => k a log'
    | (Raise e, log') => (Raise e, log')
    end.

Definition lift {A : Type} (r : result A) : M A := fun log => (r, log).

Definition send (net : Net) (req : request) : M reply :=
  fun log => (Ok (net req), (log ++ [req])%list).

(** [try: body / except Exception as e: return handler(e)]. *)
Definition try_except (body : M string) (handler : exn -> string) : M string :=
  fun log =>
    match body log with
    | (Ok s, log') => (Ok s, log')
    | (Raise e, log') => (Ok (handler e), log')
    end.

Notation "x <<- c ;; k" := (mbind c (fun x => k))
  (at level 61, c at next level, right associativity) : result_scope.

(** ** Configuration *)

Definition BASE_URL : string := "https://api.companycam.com/v2".
Definition DEFAULT_PER_PAGE : Z := 25.

(** ** HTTP client *)

Definition missing_token_message : string :=
  "COMPANYCAM_API_TOKEN environment variable is not set. "
  ++ "Generate a token at app.companycam.com/access_tokens".

Definition _get_headers (env : Env) : result (list (string * string)) :=
  if String.eqb (API_TOKEN env) EmptyString then
    Raise (ValueError missing_token_message)
  else
    Ok [("Authorization", "Bearer " ++ API_TOKEN env);
        ("Content-Type", "application/json");
        ("Accept", "application/json")].

(** [response.raise_for_status()] then [response.json()]. *)
Definition receive (r : reply) : result json :=
  match r with
  | Fault e => Raise e
  | Response status text content =>
      if (200 <=? status) && (status <=? 299) then
        match content with
        | JsonBody v => Ok v
        | NotJson msg => Raise (ValueError msg)
        end
      else Raise (HTTPStatusError status text)
  end.

(** [params or {}]. *)
Definition params_or_empty (params : option (list (string * json)))
  : list (string * json) :=
  match params with
  | Some p => p
  | None => []
  end.

Definition _api_get (env : Env) (net : Net) (path : string)
    (params : option (list (string * json))) : M json :=
  headers <<- lift (_get_headers env) ;;
  r <<- send net (mk_request GET (BASE_URL ++ path) headers
                    (params_or_empty params) None) ;;
  lift (receive r).

Definition _api_post (env : Env) (net : Net) (path : string) (data : json) : M json :=
  headers <<- lift (_get_headers env) ;;
  r <<- send net (mk_request POST (BASE_URL ++ path) headers [] (Some data)) ;;
  lift (receive r).

Definition _api_put (env : Env) (net : Net) (path : string) (data : json) : M json :=
  headers <<- lift (_get_headers env) ;;
  r <<- send net (mk_request PUT (BASE_URL ++ path) headers [] (Some data)) ;;
  lift (receive r).

Definition _handle_api_error (e : exn) : string :=
  match e with
  | HTTPStatusError status text =>
      if status =? 401 then
        "Error: Authentication failed. Check your COMPANYCAM_API_TOKEN."
      else if status =? 403 then
        "Error: Permission denied. Ensure your account has API access (Pro+ plan, Admin role)."
      else if status =? 404 then
        "Error: Resource not found. Check the ID is correct."
      else if status =? 429 then
        "Error: Rate limit exceeded. Wait a moment and retry."
      else
        "Error: API returned " ++ string_of_Z status ++ ". Response: "
        ++ str_prefix 500 text
  | TimeoutException _ => "Error: Request timed out. Try again."
  | ValueError msg => "Error: " ++ msg
  | OtherException class_name msg => "Error: " ++ class_name ++ ": " ++ msg
  end.

(** The text a tool returns for the outcome [r] of its [try] block. *)
Definition text_of (r : result string) : string :=
  match r with
  | Ok s => s
  | Raise e => _handle_api_error e
  end.

(** ** Formatting helpers *)

Definition _unix_to_str (ts : json) : result string :=
  if negb (truthy ts) then Ok "N/A"
  else
    match ts with
    | JInt z => dt <- fromtimestamp_utc z ;; Ok (strftime_utc dt)
    | JBool b => dt <- fromtimestamp_utc (if b then 1 else 0) ;; Ok (strftime_utc dt)
    | _ =>
        Raise (TypeError
                 (squote ++ type_name ts ++ squote
                  ++ " object cannot be interpreted as an integer"))
    end.

Definition _format_address (addr : json) : result string :=
  if negb (truthy addr) then Ok "No address"
  else
    a1 <- py_get addr "street_address_1" (JStr EmptyString) ;;
    a2 <- py_get addr "street_address_2" (JStr EmptyString) ;;
    city <- py_get addr "city" (JStr EmptyString) ;;
    state <- py_get addr "state" (JStr EmptyString) ;;
    postal <- py_get addr "postal_code" (JStr EmptyString) ;;
    py_join ", " (filter truthy [a1; a2; city; state; postal]).

(** [uri.get("url") or uri.get("uri", "")]. *)
Definition url_or_uri (uri : json) : result json :=
  u <- py_get uri "url" JNull ;;
  if truthy u then Ok u else py_get uri "uri" (JStr EmptyString).

(** [v == size] for a string [size]. *)
Definition eq_str (v : json) (size : string) : bool :=
  match v with
  | JStr s => String.eqb s size
  | _ => false
  end.

(** The [for] loop of [_get_photo_url]: the value returned from inside the
    loop, if the loop returns. *)
Fixpoint first_of_size (size : string) (items : list json) : result (option json) :=
  match items with
  | [] => Ok None
  | uri :: r =>
      t <- py_get uri "type" JNull ;;
      if eq_str t size then (u <- url_or_uri uri ;; Ok (Some u))
      else first_of_size size r
  end.

(** [v[0]]. *)
Definition py_first (v : json) : result json :=
  match v with
  | JList (x :: _) => Ok x
  | JList [] => Raise (OtherException "IndexError" "list index out of range")
  | JStr (String c _) => Ok (JStr (String c EmptyString))
  | JStr EmptyString => Raise (OtherException "IndexError" "string index out of range")
  | JDict _ => Raise (KeyError "0")
  | _ =>
      Raise (TypeError (squote ++ type_name v ++ squote ++ " object is not subscriptable"))
  end.

Definition _get_photo_url (uris : json) (size : string) : result json :=
  items <- py_iter (py_or uris (JList [])) ;;
  found <- first_of_size size items ;;
  match found with
  | Some u => Ok u
  | None =>
      if truthy uris then (x <- py_first uris ;; url_or_uri x)
      else Ok (JStr "No URL available")
  end.

Definition contact_line (contact : json) : result (list string) :=
  if truthy contact then
    name <- py_get contact "name" JNull ;;
    if truthy name then
      phone <- py_get contact "phone_number" JNull ;;
      email <- py_get contact "email" JNull ;;
      s <- py_join " | "
             ([name] ++ (if truthy phone then [phone] else [])
                     ++ (if truthy email then [email] else []))%list ;;
      Ok ["  Contact: " ++ s]
    else Ok []
  else Ok [].

Definition integration_str (i : json) : result string :=
  t <- py_get i "type" (JStr "?") ;;
  r <- py_get i "relation_id" (JStr "?") ;;
  Ok (py_str t ++ ":" ++ py_str r).

Definition _format_project_summary (project : json) : result string :=
  address <- py_get project "address" JNull ;;
  addr <- _format_address address ;;
  name0 <- py_get project "name" JNull ;;
  let name := py_or name0 (JStr "Unnamed") in
  pid <- py_get project "id" (JStr "?") ;;
  status <- py_get project "status" (JStr "?") ;;
  arch <- py_get project "archived" JNull ;;
  let archived := if truthy arch then " [ARCHIVED]" else EmptyString in
  created_at <- py_get project "created_at" JNull ;;
  created <- _unix_to_str created_at ;;
  updated_at <- py_get project "updated_at" JNull ;;
  updated <- _unix_to_str updated_at ;;
  url <- py_get project "project_url" (JStr EmptyString) ;;
  notepad <- py_get project "notepad" (JStr EmptyString) ;;
  let lines :=
    ["**" ++ py_str name ++ "** (ID: " ++ py_str pid ++ ")" ++ archived;
     "  Status: " ++ py_str status;
     "  Address: " ++ addr;
     "  Created: " ++ created ++ " | Updated: " ++ updated] in
  let url_line := if truthy url then ["  URL: " ++ py_str url] else [] in
  notepad_line <-
    (if truthy notepad then
       head <- py_slice_str 200 notepad ;;
       n <- py_len notepad ;;
       Ok ["  Notepad: " ++ head ++ (if n >? 200 then "..." else EmptyString)]
     else Ok []) ;;
  contact <- py_get project "primary_contact" JNull ;;
  contact_lines <- contact_line contact ;;
  integrations <- py_get project "integrations" (JList []) ;;
  integration_lines <-
    (if truthy integrations then
       items <- py_iter integrations ;;
       int_strs <- rmap integration_str items ;;
       Ok ["  Integrations: " ++ join ", " int_strs]
     else Ok []) ;;
  Ok (join nl (lines ++ url_line ++ notepad_line ++ contact_lines
                 ++ integration_lines)%list).

Definition _format_photo_summary (photo : json) : result string :=
  pid <- py_get photo "id" (JStr "?") ;;
  creator <- py_get photo "creator_name" (JStr "Unknown") ;;
  desc <- py_get photo "description" (JStr EmptyString) ;;
  captured_at <- py_get photo "captured_at" JNull ;;
  captured <- _unix_to_str captured_at ;;
  uris <- py_get photo "uris" (JList []) ;;
  url <- _get_photo_url uris "web" ;;
  intern <- py_get photo "internal" JNull ;;
  let internal := if truthy intern then " [INTERNAL]" else EmptyString in
  photo_link <- py_get photo "photo_url" (JStr EmptyString) ;;
  let head := "Photo " ++ py_str pid ++ internal ++ " — by " ++ py_str creator
              ++ " on " ++ captured in
  let desc_line := if truthy desc then ["  Description: " ++ py_str desc] else [] in
  let image := "  Image: " ++ py_str url in
  let web_line := if truthy photo_link then ["  Web: " ++ py_str photo_link] else [] in
  Ok (join nl ([head] ++ desc_line ++ [image] ++ web_line)%list).

(** ** Input models

    The validated parameter records the tools receive.  An [Optional[str]]
    field is an [option string]. *)

Module SearchProjectsInput.
Record t : Type := mk { query : string; page : Z; per_page : Z }.
End SearchProjectsInput.

Module GetProjectInput.
Record t : Type := mk { project_id : string }.
End GetProjectInput.

Module ListProjectPhotosInput.
Record t : Type := mk {
    project_id : string;
    start_date : option string;
    end_date : option string;
    user_id : option string;
    tag_id : option string;
    page : Z;
    per_page : Z
  }.
End ListProjectPhotosInput.

Module GetPhotoInput.
Record t : Type := mk { photo_id : string }.
End GetPhotoInput.

Module ListProjectLabelsInput.
Record t : Type := mk { project_id : string }.
End ListProjectLabelsInput.

Module ListProjectCommentsInput.
Record t : Type := mk { project_id : string; page : Z; per_page : Z }.
End ListProjectCommentsInput.

Module ListUsersInput.
Record t : Type := mk { page : Z; per_page : Z }.
End ListUsersInput.

Module ListTagsInput.
Record t : Type := mk { page : Z; per_page : Z }.
End ListTagsInput.

Module AddProjectCommentInput.
Record t : Type := mk { project_id : string; content : string }.
End AddProjectCommentInput.

Module AddPhotoTagsInput.
Record t : Type := mk { photo_id : string; tags : list string }.
End AddPhotoTagsInput.

Module AddProjectLabelsInput.
Record t : Type := mk { project_id : string; labels : list string }.
End AddProjectLabelsInput.

Module UpdateNotepadInput.
Record t : Type := mk { project_id : string; notepad : string }.
End UpdateNotepadInput.

Module AddPhotoCommentInput.
Record t : Type := mk { photo_id : string; content : string }.
End AddPhotoCommentInput.

(** ** Tier 1 tools: read operations *)

(** The "more results" lines of the two tools that have one. *)
Definition more_results_hint (page : Z) : string :=
  "_More results may be available on page " ++ string_of_Z (page + 1) ++ "._".

Definition more_photos_hint (page : Z) : string :=
  "_More photos may be available on page " ++ string_of_Z (page + 1) ++ "._".

(** [for x in items: lines.append(s); lines.append("")]. *)
Definition with_blank_lines (summaries : list string) : list string :=
  flat_map (fun s => [s; EmptyString]) summaries.

(** What [cc_search_projects] makes of the answer [data]. *)
Definition search_projects_text (params : SearchProjectsInput.t) (data : json)
  : result string :=
  let query := SearchProjectsInput.query params in
  let page := SearchProjectsInput.page params in
  let per_page := SearchProjectsInput.per_page params in
  if negb (truthy data) then
    Ok ("No projects found matching '" ++ query ++ "'.")
  else
    n <- py_len data ;;
    let header := "**Found " ++ string_of_Z n ++ " project(s) matching '"
                  ++ query ++ "'** (page " ++ string_of_Z page ++ "):" ++ nl in
    items <- py_iter data ;;
    summaries <- rmap _format_project_summary items ;;
    let hint := if n =? per_page then [more_results_hint page] else [] in
    Ok (join nl ([header] ++ with_blank_lines summaries ++ hint)%list).

Definition cc_search_projects (env : Env) (net : Net) (params : SearchProjectsInput.t)
  : M string :=
  try_except
    (data <<- _api_get env net "/projects"
                (Some [("query", JStr (SearchProjectsInput.query params));
                       ("page", JInt (SearchProjectsInput.page params));
                       ("per_page", JInt (SearchProjectsInput.per_page params))]) ;;
     lift (search_projects_text params data))
    _handle_api_error.

Definition cc_get_project (env : Env) (net : Net) (params : GetProjectInput.t)
  : M string :=
  try_except
    (project <<- _api_get env net ("/projects/" ++ GetProjectInput.project_id params)
                   None ;;
     lift (_format_project_summary project))
    _handle_api_error.

(** [if date: dt = datetime.fromisoformat(date.replace("Z", "+00:00"));
    api_params[key] = str(int(dt.timestamp()))]. *)
Definition add_date (env : Env) (key : string) (date : option string)
    (api_params : list (string * json)) : result (list (string * json)) :=
  match date with
  | Some s =>
      if String.eqb s EmptyString then Ok api_params
      else
        dt <- fromisoformat (replace_Z s) ;;
        Ok (dict_set key (JStr (string_of_Z (timestamp env dt))) api_params)
  | None => Ok api_params
  end.

(** [if value: api_params[key] = value]. *)
Definition add_filter (key : string) (value : option string)
    (api_params : list (string * json)) : list (string * json) :=
  match value with
  | Some s =>
      if String.eqb s EmptyString then api_params
      else dict_set key (JStr s) api_params
  | None => api_params
  end.

(** The query parameters [cc_list_project_photos] builds before it calls the
    transport. *)
Definition photos_api_params (env : Env) (params : ListProjectPhotosInput.t)
  : result (list (string * json)) :=
  let p0 := [("page", JInt (ListProjectPhotosInput.page params));
             ("per_page", JInt (ListProjectPhotosInput.per_page params))] in
  p1 <- add_date env "start_date" (ListProjectPhotosInput.start_date params) p0 ;;
  p2 <- add_date env "end_date" (ListProjectPhotosInput.end_date params) p1 ;;
  Ok (add_filter "tag_ids[]" (ListProjectPhotosInput.tag_id params)
        (add_filter "user_ids[]" (ListProjectPhotosInput.user_id params) p2)).

(** What [cc_list_project_photos] makes of the answer [data]. *)
Definition project_photos_text (params : ListProjectPhotosInput.t) (data : json)
  : result string :=
  let project_id := ListProjectPhotosInput.project_id params in
  let page := ListProjectPhotosInput.page params in
  let per_page := ListProjectPhotosInput.per_page params in
  if negb (truthy data) then
    Ok ("No photos found for project " ++ project_id ++ " with the given filters.")
  else
    n <- py_len data ;;
    let header := "**" ++ string_of_Z n ++ " photo(s)** for project "
                  ++ project_id ++ " (page " ++ string_of_Z page ++ "):" ++ nl in
    items <- py_iter data ;;
    summaries <- rmap _format_photo_summary items ;;
    let hint := if n =? per_page then [more_photos_hint page] else [] in
    Ok (join nl ([header] ++ with_blank_lines summaries ++ hint)%list).

Definition cc_list_project_photos (env : Env) (net : Net)
    (params : ListProjectPhotosInput.t) : M string :=
  try_except
    (api_params <<- lift (photos_api_params env params) ;;
     data <<- _api_get env net
                ("/projects/" ++ ListProjectPhotosInput.project_id params ++ "/photos")
                (Some api_params) ;;
     lift (project_photos_text params data))
    _handle_api_error.

Definition location_line (c : json) : result string :=
  lat <- py_get c "lat" (JStr "?") ;;
  lon <- py_get c "lon" (JStr "?") ;;
  Ok ("  Location: " ++ py_str lat ++ ", " ++ py_str lon).

Definition size_line (uri : json) : result string :=
  t <- py_get uri "type" (JStr "?") ;;
  u <- url_or_uri uri ;;
  Ok ("    " ++ py_str t ++ ": " ++ py_str u).

Definition cc_get_photo (env : Env) (net : Net) (params : GetPhotoInput.t) : M string :=
  try_except
    (photo <<- _api_get env net ("/photos/" ++ GetPhotoInput.photo_id params) None ;;
     lift
       (summary <- _format_photo_summary photo ;;
        coords <- py_get photo "coordinates" JNull ;;
        loc_lines <-
          (if truthy coords then
             rmap location_line (match coords with JList l => l | _ => [coords] end)
           else Ok []) ;;
        uris <- py_get photo "uris" (JList []) ;;
        n <- py_len uris ;;
        size_lines <-
          (if n >? 1 then
             items <- py_iter uris ;;
             ls <- rmap size_line items ;;
             Ok ("  All sizes:" :: ls)
           else Ok []) ;;
        processing <- py_get photo "processing_status" (JStr "?") ;;
        project <- py_get photo "project_id" (JStr "?") ;;
        let tail := ["  Processing: " ++ py_str processing;
                     "  Project ID: " ++ py_str project] in
        Ok (join nl ([summary] ++ loc_lines ++ size_lines ++ tail)%list)))
    _handle_api_error.

Definition label_line (tag : json) : result string :=
  dv <- py_get tag "display_value" (JStr "?") ;;
  id <- py_get tag "id" (JStr "?") ;;
  Ok ("  • " ++ py_str dv ++ " (ID: " ++ py_str id ++ ")").

Definition cc_list_project_labels (env : Env) (net : Net)
    (params : ListProjectLabelsInput.t) : M string :=
  let project_id := ListProjectLabelsInput.project_id params in
  try_except
    (data <<- _api_get env net ("/projects/" ++ project_id ++ "/labels") None ;;
     lift
       (if negb (truthy data) then Ok ("No labels on project " ++ project_id ++ ".")
        else
          n <- py_len data ;;
          let header := "**" ++ string_of_Z n ++ " label(s)** on project "
                        ++ project_id ++ ":" in
          items <- py_iter data ;;
          ls <- rmap label_line items ;;
          Ok (join nl (header :: ls))))
    _handle_api_error.

Definition comment_line (comment : json) : result string :=
  author <- py_get comment "creator_name" (JStr "Unknown") ;;
  content <- py_get comment "content" (JStr EmptyString) ;;
  created_at <- py_get comment "created_at" JNull ;;
  created <- _unix_to_str created_at ;;
  Ok ("  [" ++ created ++ "] **" ++ py_str author ++ "**: " ++ py_str content).

Definition cc_list_project_comments (env : Env) (net : Net)
    (params : ListProjectCommentsInput.t) : M string :=
  let project_id := ListProjectCommentsInput.project_id params in
  try_except
    (data <<- _api_get env net ("/projects/" ++ project_id ++ "/comments")
                (Some [("page", JInt (ListProjectCommentsInput.page params));
                       ("per_page", JInt (ListProjectCommentsInput.per_page params))]) ;;
     lift
       (if negb (truthy data) then Ok ("No comments on project " ++ project_id ++ ".")
        else
          n <- py_len data ;;
          let header := "**" ++ string_of_Z n ++ " comment(s)** on project "
                        ++ project_id ++ ":" ++ nl in
          items <- py_iter data ;;
          ls <- rmap comment_line items ;;
          Ok (join nl (header :: ls))))
    _handle_api_error.

Definition user_line (user : json) : result string :=
  first <- py_get user "first_name" (JStr EmptyString) ;;
  last <- py_get user "last_name" (JStr EmptyString) ;;
  let name := strip (py_str first ++ " " ++ py_str last) in
  email <- py_get user "email_address" (JStr EmptyString) ;;
  uid <- py_get user "id" (JStr "?") ;;
  status <- py_get user "status" (JStr "?") ;;
  Ok ("  • " ++ name ++ " — ID: " ++ py_str uid ++ " | " ++ py_str email
      ++ " | " ++ py_str status).

Definition cc_list_users (env : Env) (net : Net) (params : ListUsersInput.t)
  : M string :=
  try_except
    (data <<- _api_get env net "/users"
                (Some [("page", JInt (ListUsersInput.page params));
                       ("per_page", JInt (ListUsersInput.per_page params))]) ;;
     lift
       (if negb (truthy data) then Ok "No users found."
        else
          n <- py_len data ;;
          let header := "**" ++ string_of_Z n ++ " user(s):**" ++ nl in
          items <- py_iter data ;;
          ls <- rmap user_line items ;;
          Ok (join nl (header :: ls))))
    _handle_api_error.

Definition cc_list_tags (env : Env) (net : Net) (params : ListTagsInput.t)
  : M string :=
  try_except
    (data <<- _api_get env net "/tags"
                (Some [("page", JInt (ListTagsInput.page params));
                       ("per_page", JInt (ListTagsInput.per_page params))]) ;;
     lift
       (if negb (truthy data) then Ok "No tags found."
        else
          n <- py_len data ;;
          let header := "**" ++ string_of_Z n ++ " tag(s):**" ++ nl in
          items <- py_iter data ;;
          ls <- rmap label_line items ;;
          Ok (join nl (header :: ls))))
    _handle_api_error.

(** ** Tier 2 tools: write operations *)

Definition comment_body (content : string) : json :=
  JDict [("comment", JDict [("content", JStr content)])].

Definition cc_add_project_comment (env : Env) (net : Net)
    (params : AddProjectCommentInput.t) : M string :=
  let project_id := AddProjectCommentInput.project_id params in
  try_except
    (data <<- _api_post env net ("/projects/" ++ project_id ++ "/comments")
                (comment_body (AddProjectCommentInput.content params)) ;;
     lift
       (author <- py_get data "creator_name" (JStr "Unknown") ;;
        created_at <- py_get data "created_at" JNull ;;
        created <- _unix_to_str created_at ;;
        content <- py_get data "content" (JStr EmptyString) ;;
        Ok ("Comment added to project " ++ project_id ++ " by " ++ py_str author
            ++ " at " ++ created ++ ":" ++ nl ++ dquote ++ py_str content ++ dquote)))
    _handle_api_error.

Definition cc_add_photo_tags (env : Env) (net : Net) (params : AddPhotoTagsInput.t)
  : M string :=
  let photo_id := AddPhotoTagsInput.photo_id params in
  let tags := AddPhotoTagsInput.tags params in
  try_except
    (data <<- _api_post env net ("/photos/" ++ photo_id ++ "/tags")
                (JDict [("tag", JDict [("display_values", JList (map JStr tags))])]) ;;
     lift
       (tag_names <-
          match data with
          | JList (x :: r) =>
              rmap (fun t => py_get t "display_value" (JStr "?")) (x :: r)
          | _ => Ok (map JStr tags)
          end ;;
        names <- py_join ", " tag_names ;;
        Ok ("Tags added to photo " ++ photo_id ++ ": " ++ names)))
    _handle_api_error.

Definition cc_add_project_labels (env : Env) (net : Net)
    (params : AddProjectLabelsInput.t) : M string :=
  let project_id := AddProjectLabelsInput.project_id params in
  let labels := AddProjectLabelsInput.labels params in
  try_except
    (data <<- _api_post env net ("/projects/" ++ project_id ++ "/labels")
                (JDict [("project", JDict [("labels", JList (map JStr labels))])]) ;;
     mret ("Labels added to project " ++ project_id ++ ": " ++ join ", " labels))
    _handle_api_error.

Definition cc_update_project_notepad (env : Env) (net : Net)
    (params : UpdateNotepadInput.t) : M string :=
  let project_id := UpdateNotepadInput.project_id params in
  let notepad := UpdateNotepadInput.notepad params in
  try_except
    (data <<- _api_put env net ("/projects/" ++ project_id ++ "/notepad")
                (JDict [("notepad", JStr notepad)]) ;;
     mret ("Notepad updated for project " ++ project_id ++ ". New content ("
           ++ string_of_Z (strlen notepad) ++ " chars)."))
    _handle_api_error.

Definition cc_add_photo_comment (env : Env) (net : Net)
    (params : AddPhotoCommentInput.t) : M string :=
  let photo_id := AddPhotoCommentInput.photo_id params in
  try_except
    (data <<- _api_post env net ("/photos/" ++ photo_id ++ "/comments")
                (comment_body (AddPhotoCommentInput.content params)) ;;
     lift
       (author <- py_get data "creator_name" (JStr "Unknown") ;;
        content <- py_get data "content" (JStr EmptyString) ;;
        Ok ("Comment added to photo " ++ photo_id ++ " by " ++ py_str author
            ++ ":" ++ nl ++ dquote ++ py_str content ++ dquote)))
    _handle_api_error.

(** ** Validation of the input models

    The host validates the raw arguments of a call (the members of the
    [params] object) against the tool's pydantic model before it calls the
    tool.  A raw argument is a JSON scalar or a list of strings.  The embedding is strict on JSON types: an
    integer field takes a JSON integer and a string field a JSON string
    (pydantic's conversions between JSON types are left out). *)

Inductive arg : Type :=
| AInt (z : Z)
| AStr (s : string)
| AStrs (l : list string)
| ANone.

Definition args : Type := list (string * arg).

(** One line of a pydantic [ValidationError]: the field and the error type. *)
Record verror : Type := mk_verror { loc : string; kind : string }.

Inductive validated (A : Type) : Type :=
| Valid (a : A)
| Invalid (errors : list verror).

Arguments Valid {A} a.
Arguments Invalid {A} errors.

Definition field (A : Type) : Type := (verror + A)%type.

Definition errs {A : Type} (f : field A) : list verror :=
  match f with
  | inl e => [e]
  | inr _ => []
  end.

Definition check_length (name : string) (min_length max_length : option Z)
    (too_short too_long : string) (n : Z) : option verror :=
  match min_length with
  | Some lo =>
      if n <? lo then Some (mk_verror name too_short)
      else
        match max_length with
        | Some hi => if hi <? n then Some (mk_verror name too_long) else None
        | None => None
        end
  | None =>
      match max_length with
      | Some hi => if hi <? n then Some (mk_verror name too_long) else None
      | None => None
      end
  end.

(** [name: str = Field(..., min_length=, max_length=)] under
    [str_strip_whitespace=True]: the text is stripped, then measured. *)
Definition str_field (a : args) (name : string) (min_length max_length : option Z)
  : field string :=
  match lookup name a with
  | None => inl (mk_verror name "missing")
  | Some (AStr s) =>
      let s' := trim s in
      match check_length name min_length max_length
              "string_too_short" "string_too_long" (strlen s') with
      | Some e => inl e
      | None => inr s'
      end
  | Some _ => inl (mk_verror name "string_type")
  end.

(** [name: Optional[str] = Field(default=None)]. *)
Definition opt_str_field (a : args) (name : string) : field (option string) :=
  match lookup name a with
  | None => inr None
  | Some ANone => inr None
  | Some (AStr s) => inr (Some (trim s))
  | Some _ => inl (mk_verror name "string_type")
  end.

(** [name: int = Field(default=, ge=, le=)]; a default is not validated. *)
Definition int_field (a : args) (name : string) (default : Z) (ge : Z) (le : option Z)
  : field Z :=
  match lookup name a with
  | None => inr default
  | Some (AInt z) =>
      if z <? ge then inl (mk_verror name "greater_than_equal")
      else
        match le with
        | Some hi =>
            if hi <? z then inl (mk_verror name "less_than_equal") else inr z
        | None => inr z
        end
  | Some _ => inl (mk_verror name "int_type")
  end.

(** [name: List[str] = Field(..., min_length=1)]. *)
Definition strs_field (a : args) (name : string) : field (list string) :=
  match lookup name a with
  | None => inl (mk_verror name "missing")
  | Some (AStrs l) =>
      if (Z.of_nat (List.length l)) <? 1 then inl (mk_verror name "too_short")
      else inr (map trim l)
  | Some _ => inl (mk_verror name "list_type")
  end.

Definition mem (k : string) (names : list string) : bool :=
  existsb (String.eqb k) names.

(** [extra="forbid"]: every key that is not a field of the model is an error. *)
Fixpoint extra_forbidden (a : args) (names : list string) : list verror :=
  match a with
  | [] => []
  | (k, _) :: r =>
      if mem k names then extra_forbidden r names
      else mk_verror k "extra_forbidden" :: extra_forbidden r names
  end.

Definition validate_SearchProjectsInput (a : args) : validated SearchProjectsInput.t :=
  let q := str_field a "query" (Some 1) (Some 200) in
  let p := int_field a "page" 1 1 None in
  let pp := int_field a "per_page" DEFAULT_PER_PAGE 1 (Some 100) in
  let ex := extra_forbidden a ["query"; "page"; "per_page"] in
  match q, p, pp, ex with
  | inr q', inr p', inr pp', [] => Valid (SearchProjectsInput.mk q' p' pp')
  | _, _, _, _ => Invalid (errs q ++ errs p ++ errs pp ++ ex)%list
  end.

Definition validate_GetProjectInput (a : args) : validated GetProjectInput.t :=
  let i := str_field a "project_id" (Some 1) None in
  let ex := extra_forbidden a ["project_id"] in
  match i, ex with
  | inr i', [] => Valid (GetProjectInput.mk i')
  | _, _ => Invalid (errs i ++ ex)%list
  end.

Definition validate_ListProjectPhotosInput (a : args)
  : validated ListProjectPhotosInput.t :=
  let i := str_field a "project_id" (Some 1) None in
  let sd := opt_str_field a "start_date" in
  let ed := opt_str_field a "end_date" in
  let u := opt_str_field a "user_id" in
  let t := opt_str_field a "tag_id" in
  let p := int_field a "page" 1 1 None in
  let pp := int_field a "per_page" DEFAULT_PER_PAGE 1 (Some 100) in
  let ex := extra_forbidden a
              ["project_id"; "start_date"; "end_date"; "user_id"; "tag_id";
               "page"; "per_page"] in
  match i, sd, ed, u, t, p, pp, ex with
  | inr i', inr sd', inr ed', inr u', inr t', inr p', inr pp', [] =>
      Valid (ListProjectPhotosInput.mk i' sd' ed' u' t' p' pp')
  | _, _, _, _, _, _, _, _ =>
      Invalid (errs i ++ errs sd ++ errs ed ++ errs u ++ errs t ++ errs p
               ++ errs pp ++ ex)%list
  end.

Definition validate_GetPhotoInput (a : args) : validated GetPhotoInput.t :=
  let i := str_field a "photo_id" (Some 1) None in
  let ex := extra_forbidden a ["photo_id"] in
  match i, ex with
  | inr i', [] => Valid (GetPhotoInput.mk i')
  | _, _ => Invalid (errs i ++ ex)%list
  end.

Definition validate_ListProjectLabelsInput (a : args)
  : validated ListProjectLabelsInput.t :=
  let i := str_field a "project_id" (Some 1) None in
  let ex := extra_forbidden a ["project_id"] in
  match i, ex with
  | inr i', [] => Valid (ListProjectLabelsInput.mk i')
  | _, _ => Invalid (errs i ++ ex)%list
  end.

Definition validate_ListProjectCommentsInput (a : args)
  : validated ListProjectCommentsInput.t :=
  let i := str_field a "project_id" (Some 1) None in
  let p := int_field a "page" 1 1 None in
  let pp := int_field a "per_page" DEFAULT_PER_PAGE 1 (Some 100) in
  let ex := extra_forbidden a ["project_id"; "page"; "per_page"] in
  match i, p, pp, ex with
  | inr i', inr p', inr pp', [] => Valid (ListProjectCommentsInput.mk i' p' pp')
  | _, _, _, _ => Invalid (errs i ++ errs p ++ errs pp ++ ex)%list
  end.

Definition validate_ListUsersInput (a : args) : validated ListUsersInput.t :=
  let p := int_field a "page" 1 1 None in
  let pp := int_field a "per_page" 100 1 (Some 100) in
  let ex := extra_forbidden a ["page"; "per_page"] in
  match p, pp, ex with
  | inr p', inr pp', [] => Valid (ListUsersInput.mk p' pp')
  | _, _, _ => Invalid (errs p ++ errs pp ++ ex)%list
  end.

Definition validate_ListTagsInput (a : args) : validated ListTagsInput.t :=
  let p := int_field a "page" 1 1 None in
  let pp := int_field a "per_page" 100 1 (Some 100) in
  let ex := extra_forbidden a ["page"; "per_page"] in
  match p, pp, ex with
  | inr p', inr pp', [] => Valid (ListTagsInput.mk p' pp')
  | _, _, _ => Invalid (errs p ++ errs pp ++ ex)%list
  end.

Definition validate_AddProjectCommentInput (a : args)
  : validated AddProjectCommentInput.t :=
  let i := str_field a "project_id" (Some 1) None in
  let c := str_field a "content" (Some 1) (Some 5000) in
  let ex := extra_forbidden a ["project_id"; "content"] in
  match i, c, ex with
  | inr i', inr c', [] => Valid (AddProjectCommentInput.mk i' c')
  | _, _, _ => Invalid (errs i ++ errs c ++ ex)%list
  end.

Definition validate_AddPhotoTagsInput (a : args) : validated AddPhotoTagsInput.t :=
  let i := str_field a "photo_id" (Some 1) None in
  let t := strs_field a "tags" in
  let ex := extra_forbidden a ["photo_id"; "tags"] in
  match i, t, ex with
  | inr i', inr t', [] => Valid (AddPhotoTagsInput.mk i' t')
  | _, _, _ => Invalid (errs i ++ errs t ++ ex)%list
  end.

Definition validate_AddProjectLabelsInput (a : args)
  : validated AddProjectLabelsInput.t :=
  let i := str_field a "project_id" (Some 1) None in
  let l := strs_field a "labels" in
  let ex := extra_forbidden a ["project_id"; "labels"] in
  match i, l, ex with
  | inr i', inr l', [] => Valid (AddProjectLabelsInput.mk i' l')
  | _, _, _ => Invalid (errs i ++ errs l ++ ex)%list
  end.

Definition validate_UpdateNotepadInput (a : args) : validated UpdateNotepadInput.t :=
  let i := str_field a "project_id" (Some 1) None in
  let n := str_field a "notepad" None (Some 10000) in
  let ex := extra_forbidden a ["project_id"; "notepad"] in
  match i, n, ex with
  | inr i', inr n', [] => Valid (UpdateNotepadInput.mk i' n')
  | _, _, _ => Invalid (errs i ++ errs n ++ ex)%list
  end.

Definition validate_AddPhotoCommentInput (a : args)
  : validated AddPhotoCommentInput.t :=
  let i := str_field a "photo_id" (Some 1) None in
  let c := str_field a "content" (Some 1) (Some 5000) in
  let ex := extra_forbidden a ["photo_id"; "content"] in
  match i, c, ex with
  | inr i', inr c', [] => Valid (AddPhotoCommentInput.mk i' c')
  | _, _, _ => Invalid (errs i ++ errs c ++ ex)%list
  end.

(** ** The operation surface

    The thirteen tools registered with [@mcp.tool], and a call of one of them
    with its validated parameters. *)

Inductive tool : Type :=
| t_search_projects | t_get_project | t_list_project_photos | t_get_photo
| t_list_project_labels | t_list_project_comments | t_list_users | t_list_tags
| t_add_project_comment | t_add_photo_tags | t_add_project_labels
| t_update_project_notepad | t_add_photo_comment.

Inductive call : Type :=
| SearchProjects (p : SearchProjectsInput.t)
| GetProject (p : GetProjectInput.t)
| ListProjectPhotos (p : ListProjectPhotosInput.t)
| GetPhoto (p : GetPhotoInput.t)
| ListProjectLabels (p : ListProjectLabelsInput.t)
| ListProjectComments (p : ListProjectCommentsInput.t)
| ListUsers (p : ListUsersInput.t)
| ListTags (p : ListTagsInput.t)
| AddProjectComment (p : AddProjectCommentInput.t)
| AddPhotoTags (p : AddPhotoTagsInput.t)
| AddProjectLabels (p : AddProjectLabelsInput.t)
| UpdateNotepad (p : UpdateNotepadInput.t)
| AddPhotoComment (p : AddPhotoCommentInput.t).

Definition vmap {A B : Type} (f : A -> B) (v : validated A) : validated B :=
  match v with
  | Valid a => Valid (f a)
  | Invalid e => Invalid e
  end.

Definition validate (t : tool) (a : args) : validated call :=
  match t with
  | t_search_projects => vmap SearchProjects (validate_SearchProjectsInput a)
  | t_get_project => vmap GetProject (validate_GetProjectInput a)
  | t_list_project_photos => vmap ListProjectPhotos (validate_ListProjectPhotosInput a)
  | t_get_photo => vmap GetPhoto (validate_GetPhotoInput a)
  | t_list_project_labels => vmap ListProjectLabels (validate_ListProjectLabelsInput a)
  | t_list_project_comments =>
      vmap ListProjectComments (validate_ListProjectCommentsInput a)
  | t_list_users => vmap ListUsers (validate_ListUsersInput a)
  | t_list_tags => vmap ListTags (validate_ListTagsInput a)
  | t_add_project_comment => vmap AddProjectComment (validate_AddProjectCommentInput a)
  | t_add_photo_tags => vmap AddPhotoTags (validate_AddPhotoTagsInput a)
  | t_add_project_labels => vmap AddProjectLabels (validate_AddProjectLabelsInput a)
  | t_update_project_notepad => vmap UpdateNotepad (validate_UpdateNotepadInput a)
  | t_add_photo_comment => vmap AddPhotoComment (validate_AddPhotoCommentInput a)
  end.

(** The tool function a call runs. *)
Definition run_tool (env : Env) (net : Net) (c : call) : M string :=
  match c with
  | SearchProjects p => cc_search_projects env net p
  | GetProject p => cc_get_project env net p
  | ListProjectPhotos p => cc_list_project_photos env net p
  | GetPhoto p => cc_get_photo env net p
  | ListProjectLabels p => cc_list_project_labels env net p
  | ListProjectComments p => cc_list_project_comments env net p
  | ListUsers p => cc_list_users env net p
  | ListTags p => cc_list_tags env net p
  | AddProjectComment p => cc_add_project_comment env net p
  | AddPhotoTags p => cc_add_photo_tags env net p
  | AddProjectLabels p => cc_add_project_labels env net p
  | UpdateNotepad p => cc_update_project_notepad env net p
  | AddPhotoComment p => cc_add_photo_comment env net p
  end.

(** What the caller of a tool observes, and the requests the call sent. *)
Inductive outcome : Type :=
| Returned (text : string)
| Propagated (e : exn)
| ValidationError (errors : list verror).

Definition run (env : Env) (net : Net) (c : call) : outcome * list request :=
  match run_tool env net c [] with
  | (Ok s, log) => (Returned s, log)
  | (Raise e, log) => (Propagated e, log)
  end.

(** A call from the host: validation first, the tool only on valid input. *)
Definition call_tool (env : Env) (net : Net) (t : tool) (a : args)
  : outcome * list request :=
  match validate t a with
  | Invalid errors => (ValidationError errors, [])
  | Valid c => run env net c
  end.

(** The list operations, and those among them that take pagination fields. *)
Definition is_list_operation (t : tool) : bool :=
  match t with
  | t_search_projects | t_list_project_photos | t_list_project_labels
  | t_list_project_comments | t_list_users | t_list_tags => true
  | _ => false
  end.

Definition is_paginated (t : tool) : bool :=
  match t with
  | t_search_projects | t_list_project_photos
  | t_list_project_comments | t_list_users | t_list_tags => true
  | _ => false
  end.

(** The page size a call asks for, when its model has the field. *)
Definition per_page_of (c : call) : option Z :=
  match c with
  | SearchProjects p => Some (SearchProjectsInput.per_page p)
  | ListProjectPhotos p => Some (ListProjectPhotosInput.per_page p)
  | ListProjectComments p => Some (ListProjectCommentsInput.per_page p)
  | ListUsers p => Some (ListUsersInput.per_page p)
  | ListTags p => Some (ListTagsInput.per_page p)
  | _ => None
  end.

Definition tool_of (c : call) : tool :=
  match c with
  | SearchProjects _ => t_search_projects
  | GetProject _ => t_get_project
  | ListProjectPhotos _ => t_list_project_photos
  | GetPhoto _ => t_get_photo
  | ListProjectLabels _ => t_list_project_labels
  | ListProjectComments _ => t_list_project_comments
  | ListUsers _ => t_list_users
  | ListTags _ => t_list_tags
  | AddProjectComment _ => t_add_project_comment
  | AddPhotoTags _ => t_add_photo_tags
  | AddProjectLabels _ => t_add_project_labels
  | UpdateNotepad _ => t_update_project_notepad
  | AddPhotoComment _ => t_add_photo_comment
  end.

(** ** Sample environments, services and inputs

    Concrete data at which the theorems below are instantiated. *)

(** A process with a token, running in UTC. *)
Definition env_utc : Env := mk_Env "secret" (fun _ => 0).

(** A process with a token, running five hours west of UTC (US Eastern
    standard time). *)
Definition env_eastern : Env := mk_Env "secret" (fun _ => -18000).

(** A process started without [COMPANYCAM_API_TOKEN]. *)
Definition env_no_token : Env := mk_Env EmptyString (fun _ => 0).

(** A service that answers every request with 200 and the JSON value [v]. *)
Definition net_ok (v : json) : Net := fun _ => Response 200 "(json)" (JsonBody v).

(** A service that answers every request with the status [status]. *)
Definition net_status (status : Z) : Net :=
  fun _ => Response status "{}" (JsonBody (JDict [])).


Definition photos_bad_date : ListProjectPhotosInput.t :=
  ListProjectPhotosInput.mk "42" (Some "foo") None None None 1 25.

(** An address object as the service sends it for a project without an
    address: every field is there and empty. *)
Definition blank_address : json :=
  JDict [("street_address_1", JStr EmptyString);
         ("street_address_2", JStr EmptyString);
         ("city", JStr EmptyString);
         ("state", JStr EmptyString);
         ("postal_code", JStr EmptyString)].

Definition one_user : json :=
  JList [JDict [("id", JStr "7"); ("first_name", JStr "Ann");
                ("last_name", JStr "Lee");
                ("email_address", JStr "ann@example.com");
                ("status", JStr "active")]].

Definition one_project : json :=
  JList [JDict [("id", JStr "9"); ("name", JStr "Roof");
                ("status", JStr "active")]].

Definition uris_thumbnail_web : json :=
  JList [JDict [("type", JStr "thumbnail"); ("url", JStr "A")];
         JDict [("type", JStr "web"); ("url", JStr "B")]].

Definition uris_thumbnail_only : json :=
  JList [JDict [("type", JStr "thumbnail"); ("uri", JStr "C")]].

Definition uris_empty_url : json :=
  JList [JDict [("type", JStr "web"); ("url", JStr EmptyString);
                ("uri", JStr "C")]].

(** ** Vocabulary of the statements *)

(** The non-empty ones among field texts. *)
Definition nonempty_fields (fields : list string) : list string :=
  filter (fun s => negb (String.eqb s EmptyString)) fields.

(** The text of the field [k] of an address dict, when it is a string; an
    absent field counts as the empty string. *)
Definition field_text (kv : list (string * json)) (k : string) : option string :=
  match lookup k kv with
  | None => Some EmptyString
  | Some (JStr s) => Some s
  | Some _ => None
  end.

(** The address value of a URI entry: its "url" value when that is
    truthy, otherwise its "uri" value, the empty string when there is none. *)
Definition entry_url (kv : list (string * json)) : json :=
  let alternate := match lookup "uri" kv with
                   | Some u => u
                   | None => JStr EmptyString
                   end in
  match lookup "url" kv with
  | Some u => if truthy u then u else alternate
  | None => alternate
  end.

(** A URI entry that is a dict and whose type is not [size]. *)
Definition other_size (size : string) (entry : json) : Prop :=
  match entry with
  | JDict kv =>
      match lookup "type" kv with
      | Some t => eq_str t size = false
      | None => True
      end
  | _ => False
  end.

(** The Unix seconds of 2025-01-15T00:00:00Z. *)
Definition jan15_utc : Z := 1736899200.

(** The HTTP method each tool uses: the read tools fetch, the write tools
    post, the notepad is put. *)
Definition method_of (t : tool) : method :=
  match t with
  | t_add_project_comment | t_add_photo_tags | t_add_project_labels
  | t_add_photo_comment => POST
  | t_update_project_notepad => PUT
  | _ => GET
  end.

(** The header set of [_get_headers] for a token. *)
Definition standard_headers (token : string) : list (string * string) :=
  [("Authorization", "Bearer " ++ token);
   ("Content-Type", "application/json");
   ("Accept", "application/json")].

(** The request [cc_get_project] sends for project 42 with [env_utc]. *)
Definition request_project_42 : request :=
  mk_request GET "https://api.companycam.com/v2/projects/42"
    (standard_headers "secret") [] None.

(** A service whose client call raises [e]. *)
Definition net_fault (e : exn) : Net := fun _ => Fault e.


(** The text of each list tool for an answer that holds nothing. *)
Definition nothing_found (c : call) : option string :=
  match c with
  | SearchProjects p =>
      Some ("No projects found matching '" ++ SearchProjectsInput.query p ++ "'.")
  | ListProjectPhotos p =>
      Some ("No photos found for project " ++ ListProjectPhotosInput.project_id p
            ++ " with the given filters.")
  | ListProjectLabels p =>
      Some ("No labels on project " ++ ListProjectLabelsInput.project_id p ++ ".")
  | ListProjectComments p =>
      Some ("No comments on project " ++ ListProjectCommentsInput.project_id p ++ ".")
  | ListUsers _ => Some "No users found."
  | ListTags _ => Some "No tags found."
  | _ => None
  end.

(** A JSON object. *)
Definition is_dict (v : json) : bool :=
  match v with
  | JDict _ => true
  | _ => false
  end.

(** The keys [_format_project_summary] and [_format_photo_summary] read. *)
Definition project_keys : list string :=
  ["address"; "name"; "id"; "status"; "archived"; "created_at"; "updated_at";
   "project_url"; "notepad"; "primary_contact"; "integrations"].

Definition photo_keys : list string :=
  ["id"; "creator_name"; "description"; "captured_at"; "uris"; "internal";
   "photo_url"].

(** The five fields [_format_address] reads. *)
Definition address_keys : list string :=
  ["street_address_1"; "street_address_2"; "city"; "state"; "postal_code"].

Definition is_str (v : json) : bool :=
  match v with
  | JStr _ => true
  | _ => false
  end.

(** The tools that read one JSON object out of the answer. *)
Definition reads_object (c : call) : bool :=
  match c with
  | GetProject _ | GetPhoto _ | AddProjectComment _ | AddPhotoComment _ => true
  | _ => false
  end.

(** An address whose postal code came as a number. *)
Definition sample_address : json :=
  JDict [("street_address_1", JStr "1 Main St"); ("street_address_2", JStr EmptyString);
         ("city", JStr "Omaha"); ("state", JStr "NE"); ("postal_code", JInt 68102)].





(** The request [cc_search_projects] sends for "roof", page 1, one item a
    page, with [env_utc]. *)
Definition request_search_roof : request :=
  mk_request GET "https://api.companycam.com/v2/projects"
    (standard_headers "secret")
    [("query", JStr "roof"); ("page", JInt 1); ("per_page", JInt 1)] None.

Definition tags_reviewed : AddPhotoTagsInput.t :=
  AddPhotoTagsInput.mk "77" ["Reviewed"; "Before"].

Definition request_tags_reviewed : request :=
  mk_request POST "https://api.companycam.com/v2/photos/77/tags"
    (standard_headers "secret") []
    (Some (JDict [("tag", JDict [("display_values",
                                  JList [JStr "Reviewed"; JStr "Before"])])])).



(** The fields each input model declares. *)
Definition fields_of (t : tool) : list string :=
  match t with
  | t_search_projects => ["query"; "page"; "per_page"]
  | t_get_project => ["project_id"]
  | t_list_project_photos =>
      ["project_id"; "start_date"; "end_date"; "user_id"; "tag_id"; "page"; "per_page"]
  | t_get_photo => ["photo_id"]
  | t_list_project_labels => ["project_id"]
  | t_list_project_comments => ["project_id"; "page"; "per_page"]
  | t_list_users => ["page"; "per_page"]
  | t_list_tags => ["page"; "per_page"]
  | t_add_project_comment => ["project_id"; "content"]
  | t_add_photo_tags => ["photo_id"; "tags"]
  | t_add_project_labels => ["project_id"; "labels"]
  | t_update_project_notepad => ["project_id"; "notepad"]
  | t_add_photo_comment => ["photo_id"; "content"]
  end.

(** The project or photo id a call names in its path. *)
Definition id_of (c : call) : option string :=
  match c with
  | GetProject p => Some (GetProjectInput.project_id p)
  | ListProjectPhotos p => Some (ListProjectPhotosInput.project_id p)
  | GetPhoto p => Some (GetPhotoInput.photo_id p)
  | ListProjectLabels p => Some (ListProjectLabelsInput.project_id p)
  | ListProjectComments p => Some (ListProjectCommentsInput.project_id p)
  | AddProjectComment p => Some (AddProjectCommentInput.project_id p)
  | AddPhotoTags p => Some (AddPhotoTagsInput.photo_id p)
  | AddProjectLabels p => Some (AddProjectLabelsInput.project_id p)
  | UpdateNotepad p => Some (UpdateNotepadInput.project_id p)
  | AddPhotoComment p => Some (AddPhotoCommentInput.photo_id p)
  | _ => None
  end.

(** The page a call asks for, when its model has the field. *)
Definition page_of (c : call) : option Z :=
  match c with
  | SearchProjects p => Some (SearchProjectsInput.page p)
  | ListProjectPhotos p => Some (ListProjectPhotosInput.page p)
  | ListProjectComments p => Some (ListProjectCommentsInput.page p)
  | ListUsers p => Some (ListUsersInput.page p)
  | ListTags p => Some (ListTagsInput.page p)
  | _ => None
  end.

(** A date filter that is given: neither [None] nor the empty string. *)
Definition date_given (d : option string) : bool :=
  match d with
  | Some s => negb (String.eqb s EmptyString)
  | None => false
  end.

(** The query value of an optional filter. *)
Definition filter_param (v : option string) : option json :=
  match v with
  | Some s => if String.eqb s EmptyString then None else Some (JStr s)
  | None => None
  end.

(** A date filter that, when given, parses to a time with an offset of its
    own (a trailing Z or a [+HH:MM]). *)
Definition carries_offset (d : option string) : Prop :=
  date_given d = true ->
  exists s dt o,
    d = Some s /\ fromisoformat (replace_Z s) = Ok dt /\ utcoffset dt = Some o.

(** The names [cc_list_project_photos] may put in its query. *)
Definition photo_query_names : list string :=
  ["page"; "per_page"; "start_date"; "end_date"; "user_ids[]"; "tag_ids[]"].

Definition photos_from_jan15_utc : ListProjectPhotosInput.t :=
  ListProjectPhotosInput.mk "42" (Some "2025-01-15T00:00:00Z") None None None 1 25.

Definition photos_by_user : ListProjectPhotosInput.t :=
  ListProjectPhotosInput.mk "42" None (Some EmptyString) (Some "u7") None 2 50.

(** The function each list tool applies to the items of its answer. *)
Definition item_text (c : call) : option (json -> result string) :=
  match c with
  | SearchProjects _ => Some _format_project_summary
  | ListProjectPhotos _ => Some _format_photo_summary
  | ListProjectLabels _ => Some label_line
  | ListProjectComments _ => Some comment_line
  | ListUsers _ => Some user_line
  | ListTags _ => Some label_line
  | _ => None
  end.

(** Two comments, the second with a date text where a number belongs. *)
Definition comments_one_bad : list json :=
  [JDict [("creator_name", JStr "Ann"); ("content", JStr "ok"); ("created_at", JInt 1)];
   JDict [("creator_name", JStr "Bob"); ("content", JStr "late");
          ("created_at", JStr "2025-01-15")]].

Definition comments_of_42 : ListProjectCommentsInput.t :=
  ListProjectCommentsInput.mk "42" 1 25.

Definition request_comments_of_42 : request :=
  mk_request GET "https://api.companycam.com/v2/projects/42/comments"
    (standard_headers "secret") [("page", JInt 1); ("per_page", JInt 25)] None.

(** What a confirmation prints of the field [k] of an answer: [str] of
    [data.get(k, d)]. *)
Definition answer_field (kv : list (string * json)) (k : string) (d : json) : string :=
  py_str (match lookup k kv with
          | Some v => v
          | None => d
          end).

Definition comment_on_photo_77 : AddPhotoCommentInput.t :=
  AddPhotoCommentInput.mk "77" "sent text".

Definition request_comment_on_photo_77 : request :=
  mk_request POST "https://api.companycam.com/v2/photos/77/comments"
    (standard_headers "secret") []
    (Some (JDict [("comment", JDict [("content", JStr "sent text")])])).

Definition stored_comment : list (string * json) :=
  [("creator_name", JStr "Ann"); ("content", JStr "stored text")].

(** * Properties *)

(** ** Dicts *)

Lemma lookup_dict_set_same {A : Type} (k : string) (v : A) (kv : list (string * A)) :
  lookup k (dict_set k v kv) = Some v.
Proof.
  induction kv as [|[k' v'] r IH]; simpl.
  - now rewrite String.eqb_refl.
  - destruct (String.eqb k k') eqn:E; simpl.
    + now rewrite String.eqb_refl.
    + now rewrite E.
Qed.

Lemma lookup_dict_set_other {A : Type} (k k' : string) (v : A) (kv : list (string * A)) :
  String.eqb k k' = false -> lookup k (dict_set k' v kv) = lookup k kv.
Proof.
  intros Hk. induction kv as [|[k0 v0] r IH]; simpl.
  - now rewrite Hk.
  - destruct (String.eqb k' k0) eqn:E; simpl.
    + apply String.eqb_eq in E. subst k0. now rewrite Hk.
    + destruct (String.eqb k k0); [reflexivity | exact IH].
Qed.

Lemma Ok_inj {A : Type} (a b : A) : Ok a = Ok b -> a = b.
Proof.
  intros H. now injection H.
Qed.

(** ** The request log of a tool *)

Lemma snd_try_except (body : M string) (h : exn -> string) (log : list request) :
  snd (try_except body h log) = snd (body log).
Proof.
  unfold try_except. destruct (body log) as [[s | e] l]; reflexivity.
Qed.

Lemma snd_bind_lift {A B : Type} (c : M A) (f : A -> result B) (log : list request) :
  snd (mbind c (fun x => lift (f x)) log) = snd (c log).
Proof.
  unfold mbind, lift. destruct (c log) as [[a | e] l]; reflexivity.
Qed.

(** What a transport call does: without a token it raises before anything
    is sent; with one it sends exactly one request and hands back what
    [receive] makes of the reply. *)
Lemma api_get_run (env : Env) (net : Net) (path : string)
    (params : option (list (string * json))) (log : list request) :
  _api_get env net path params log =
  match _get_headers env with
  | Raise e => (Raise e, log)
  | Ok h =>
      let req := mk_request GET (BASE_URL ++ path) h (params_or_empty params) None in
      (receive (net req), (log ++ [req])%list)
  end.
Proof.
  unfold _api_get, mbind, lift, send. destruct (_get_headers env); reflexivity.
Qed.

Lemma api_post_run (env : Env) (net : Net) (path : string) (data : json)
    (log : list request) :
  _api_post env net path data log =
  match _get_headers env with
  | Raise e => (Raise e, log)
  | Ok h =>
      let req := mk_request POST (BASE_URL ++ path) h [] (Some data) in
      (receive (net req), (log ++ [req])%list)
  end.
Proof.
  unfold _api_post, mbind, lift, send. destruct (_get_headers env); reflexivity.
Qed.

Lemma api_put_run (env : Env) (net : Net) (path : string) (data : json)
    (log : list request) :
  _api_put env net path data log =
  match _get_headers env with
  | Raise e => (Raise e, log)
  | Ok h =>
      let req := mk_request PUT (BASE_URL ++ path) h [] (Some data) in
      (receive (net req), (log ++ [req])%list)
  end.
Proof.
  unfold _api_put, mbind, lift, send. destruct (_get_headers env); reflexivity.
Qed.

(** A tool body of the usual shape, a transport call followed by a pure
    projection, under the handler. *)
Lemma tool_shape (T : M json) (f : json -> result string) (log log' : list request)
    (r : result json) :
  T log = (r, log') ->
  try_except (mbind T (fun d => lift (f d))) _handle_api_error log =
  (Ok (text_of (rbind r f)), log').
Proof.
  intros HT. unfold try_except, mbind, lift. rewrite HT.
  destruct r as [d | e]; simpl; [destruct (f d) |]; reflexivity.
Qed.

Lemma headers_without_token (env : Env) :
  API_TOKEN env = EmptyString ->
  _get_headers env = Raise (ValueError missing_token_message).
Proof.
  intros H. unfold _get_headers. now rewrite H.
Qed.

Lemma headers_with_token (env : Env) :
  API_TOKEN env <> EmptyString -> exists h, _get_headers env = Ok h.
Proof.
  intros H. unfold _get_headers.
  destruct (String.eqb (API_TOKEN env) EmptyString) eqn:E.
  - apply String.eqb_eq in E. contradiction.
  - eexists. reflexivity.
Qed.

Lemma get_tool_run (env : Env) (net : Net) (path : string)
    (params : option (list (string * json))) (f : json -> result string) :
  try_except (mbind (_api_get env net path params) (fun d => lift (f d)))
    _handle_api_error [] =
  match _get_headers env with
  | Raise e => (Ok (_handle_api_error e), [])
  | Ok h =>
      let req := mk_request GET (BASE_URL ++ path) h (params_or_empty params) None in
      (Ok (text_of (rbind (receive (net req)) f)), [req])
  end.
Proof.
  destruct (_get_headers env) as [h | e] eqn:E.
  - apply tool_shape. rewrite api_get_run, E. reflexivity.
  - erewrite tool_shape; [| rewrite api_get_run, E; reflexivity]. reflexivity.
Qed.

Lemma post_tool_run (env : Env) (net : Net) (path : string) (data : json)
    (f : json -> result string) :
  try_except (mbind (_api_post env net path data) (fun d => lift (f d)))
    _handle_api_error [] =
  match _get_headers env with
  | Raise e => (Ok (_handle_api_error e), [])
  | Ok h =>
      let req := mk_request POST (BASE_URL ++ path) h [] (Some data) in
      (Ok (text_of (rbind (receive (net req)) f)), [req])
  end.
Proof.
  destruct (_get_headers env) as [h | e] eqn:E.
  - apply tool_shape. rewrite api_post_run, E. reflexivity.
  - erewrite tool_shape; [| rewrite api_post_run, E; reflexivity]. reflexivity.
Qed.

Lemma put_tool_run (env : Env) (net : Net) (path : string) (data : json)
    (f : json -> result string) :
  try_except (mbind (_api_put env net path data) (fun d => lift (f d)))
    _handle_api_error [] =
  match _get_headers env with
  | Raise e => (Ok (_handle_api_error e), [])
  | Ok h =>
      let req := mk_request PUT (BASE_URL ++ path) h [] (Some data) in
      (Ok (text_of (rbind (receive (net req)) f)), [req])
  end.
Proof.
  destruct (_get_headers env) as [h | e] eqn:E.
  - apply tool_shape. rewrite api_put_run, E. reflexivity.
  - erewrite tool_shape; [| rewrite api_put_run, E; reflexivity]. reflexivity.
Qed.

(** The same for the two tools that ignore the answer. *)
Lemma post_tool_const (env : Env) (net : Net) (path : string) (data : json)
    (s : string) :
  try_except (mbind (_api_post env net path data) (fun _ => mret s))
    _handle_api_error [] =
  match _get_headers env with
  | Raise e => (Ok (_handle_api_error e), [])
  | Ok h =>
      let req := mk_request POST (BASE_URL ++ path) h [] (Some data) in
      (Ok (text_of (rbind (receive (net req)) (fun _ => Ok s))), [req])
  end.
Proof.
  exact (post_tool_run env net path data (fun _ => Ok s)).
Qed.

Lemma put_tool_const (env : Env) (net : Net) (path : string) (data : json)
    (s : string) :
  try_except (mbind (_api_put env net path data) (fun _ => mret s))
    _handle_api_error [] =
  match _get_headers env with
  | Raise e => (Ok (_handle_api_error e), [])
  | Ok h =>
      let req := mk_request PUT (BASE_URL ++ path) h [] (Some data) in
      (Ok (text_of (rbind (receive (net req)) (fun _ => Ok s))), [req])
  end.
Proof.
  exact (put_tool_run env net path data (fun _ => Ok s)).
Qed.

(** [cc_list_project_photos] builds its query first; a date that does not
    parse ends the tool before the transport is called. *)
Lemma photos_tool_run (env : Env) (net : Net) (p : ListProjectPhotosInput.t) :
  cc_list_project_photos env net p [] =
  match photos_api_params env p with
  | Raise e => (Ok (_handle_api_error e), [])
  | Ok api_params =>
      match _get_headers env with
      | Raise e => (Ok (_handle_api_error e), [])
      | Ok h =>
          let req := mk_request GET
                       (BASE_URL ++ "/projects/"
                        ++ ListProjectPhotosInput.project_id p ++ "/photos")
                       h api_params None in
          (Ok (text_of (rbind (receive (net req)) (project_photos_text p))), [req])
      end
  end.
Proof.
  unfold cc_list_project_photos.
  destruct (photos_api_params env p) as [ps | e] eqn:E.
  - pose proof (get_tool_run env net
                  ("/projects/" ++ ListProjectPhotosInput.project_id p ++ "/photos")
                  (Some ps) (project_photos_text p)) as H.
    unfold try_except, mbind, lift in *. exact H.
  - unfold try_except, mbind, lift. reflexivity.
Qed.

(** Every call runs in one of three ways: its query could not be built
    (only [cc_list_project_photos], on a date that does not parse); or there
    is no token and nothing is sent; or one request is sent and the text is
    made from the reply. *)
Lemma run_cases (env : Env) (net : Net) (c : call) :
  (exists p e, c = ListProjectPhotos p /\ photos_api_params env p = Raise e
               /\ run env net c = (Returned (_handle_api_error e), []))
  \/ (API_TOKEN env = EmptyString
      /\ run env net c = (Returned ("Error: " ++ missing_token_message), []))
  \/ (API_TOKEN env <> EmptyString
      /\ exists req f,
           run env net c = (Returned (text_of (rbind (receive (net req)) f)), [req])).
Proof.
  assert (Hh : (API_TOKEN env = EmptyString
                /\ _get_headers env = Raise (ValueError missing_token_message))
               \/ (API_TOKEN env <> EmptyString /\ exists h, _get_headers env = Ok h)).
  { destruct (string_dec (API_TOKEN env) EmptyString) as [E | E].
    - left. split; [exact E | now apply headers_without_token].
    - right. split; [exact E | now apply headers_with_token]. }
  unfold run.
  destruct c; cbn [run_tool];
    try (unfold cc_search_projects, cc_get_project, cc_get_photo,
           cc_list_project_labels, cc_list_project_comments, cc_list_users,
           cc_list_tags, cc_add_project_comment, cc_add_photo_tags,
           cc_add_project_labels, cc_update_project_notepad, cc_add_photo_comment;
         cbv zeta;
         first [ rewrite get_tool_run
               | rewrite post_tool_run
               | rewrite post_tool_const
               | rewrite put_tool_const ];
         destruct Hh as [[Ht Hh] | [Ht [h Hh]]]; rewrite Hh; cbv zeta;
         [ right; left; split; [exact Ht | reflexivity]
         | right; right; split; [exact Ht | eexists; eexists; reflexivity] ]).
  rewrite photos_tool_run.
  destruct (photos_api_params env p) as [ps | e] eqn:E.
  - destruct Hh as [[Ht Hh] | [Ht [h Hh]]]; rewrite Hh; cbv zeta.
    + right; left; split; [exact Ht | reflexivity].
    + right; right; split; [exact Ht | eexists; eexists; reflexivity].
  - left. exists p, e. split; [reflexivity | split; [exact E | reflexivity]].
Qed.

Lemma run_at_most_one_request (env : Env) (net : Net) (c : call) :
  (List.length (snd (run env net c)) <= 1)%nat.
Proof.
  destruct (run_cases env net c) as [(p & e & _ & _ & H) | [[_ H] | [_ (req & f & H)]]];
    rewrite H; simpl; lia.
Qed.

(** The reply to the request a call sent decides the text, when the reply
    makes the transport raise. *)
Lemma reply_fault_text (env : Env) (net : Net) (c : call) (req : request) (e : exn) :
  snd (run env net c) = [req] ->
  receive (net req) = Raise e ->
  fst (run env net c) = Returned (_handle_api_error e).
Proof.
  intros Hlog Hr.
  destruct (run_cases env net c) as [(p & e' & _ & _ & H) | [[_ H] | [_ (req' & f & H)]]];
    rewrite H in *; simpl in Hlog; try discriminate.
  injection Hlog as ->. simpl. now rewrite Hr.
Qed.

(** ** C9: the epoch is printed as an absent timestamp *)

(** C9.  [_unix_to_str] treats the integer 0 like an absent timestamp: both
    [0] and [None] give "N/A", although 0 is the valid timestamp that
    [fromtimestamp] would print as "1970-01-01 00:00:00 UTC". *)
Theorem unix_to_str_epoch_is_absent :
  _unix_to_str (JInt 0) = Ok "N/A"
  /\ _unix_to_str JNull = Ok "N/A"
  /\ rbind (fromtimestamp_utc 0) (fun dt => Ok (strftime_utc dt))
     = Ok "1970-01-01 00:00:00 UTC"
  /\ _unix_to_str (JInt 1) = Ok "1970-01-01 00:00:01 UTC".
Proof.
  repeat split; reflexivity.
Qed.

(** Every other integer in the range of [datetime] is formatted. *)
Lemma unix_to_str_formats (z : Z) (dt : datetime) :
  z <> 0 -> fromtimestamp_utc z = Ok dt -> _unix_to_str (JInt z) = Ok (strftime_utc dt).
Proof.
  intros Hz Hdt. unfold _unix_to_str. simpl.
  destruct (Z.eqb_spec z 0) as [E | E]; [contradiction |].
  simpl. now rewrite Hdt.
Qed.

(** ** C2: address formatting *)

(** The placeholder is returned for [None] and for the empty dict. *)
Lemma format_address_placeholder :
  _format_address JNull = Ok "No address" /\ _format_address (JDict []) = Ok "No address".
Proof.
  split; reflexivity.
Qed.

Lemma join_items_strings (i : nat) (l : list string) :
  join_items i (map JStr l) = Ok l.
Proof.
  revert i. induction l as [|s r IH]; intros i; simpl.
  - reflexivity.
  - now rewrite IH.
Qed.

Lemma filter_truthy_strings (l : list string) :
  filter truthy (map JStr l) = map JStr (nonempty_fields l).
Proof.
  induction l as [|s r IH]; simpl.
  - reflexivity.
  - destruct (String.eqb s EmptyString); simpl; now rewrite IH.
Qed.

(** For a non-empty address dict whose five fields are strings or absent,
    the result is the non-empty fields joined with ", ", in field order. *)
Lemma format_address_joins (kv : list (string * json)) (a1 a2 c s p : string) :
  kv <> [] ->
  field_text kv "street_address_1" = Some a1 ->
  field_text kv "street_address_2" = Some a2 ->
  field_text kv "city" = Some c ->
  field_text kv "state" = Some s ->
  field_text kv "postal_code" = Some p ->
  _format_address (JDict kv) = Ok (join ", " (nonempty_fields [a1; a2; c; s; p])).
Proof.
  intros Hne H1 H2 H3 H4 H5.
  assert (Hget : forall k t, field_text kv k = Some t ->
                   py_get (JDict kv) k (JStr EmptyString) = Ok (JStr t)).
  { intros k t Hk. unfold field_text in Hk. simpl.
    destruct (lookup k kv) as [[| | |u| |]|]; try discriminate;
      injection Hk as ->; reflexivity. }
  unfold _format_address.
  destruct kv as [|x r]; [contradiction |]. cbn [truthy negb].
  rewrite (Hget _ _ H1), (Hget _ _ H2), (Hget _ _ H3), (Hget _ _ H4), (Hget _ _ H5).
  cbn [rbind].
  change [JStr a1; JStr a2; JStr c; JStr s; JStr p] with (map JStr [a1; a2; c; s; p]).
  rewrite filter_truthy_strings. unfold py_join.
  rewrite join_items_strings. reflexivity.
Qed.

(** C2.  An address dict that has its fields and all of them empty is not
    given the placeholder: [_format_address] returns the empty string. *)
Theorem format_address_blank_is_empty :
  _format_address blank_address = Ok EmptyString
  /\ _format_address (JDict [("city", JStr EmptyString)]) = Ok EmptyString.
Proof.
  split; reflexivity.
Qed.

(** ** C7: image URL selection *)

Lemma url_or_uri_entry (kv : list (string * json)) :
  url_or_uri (JDict kv) = Ok (entry_url kv).
Proof.
  unfold url_or_uri, entry_url. simpl.
  destruct (lookup "url" kv) as [u |]; simpl.
  - destruct (truthy u); reflexivity.
  - reflexivity.
Qed.

Lemma iter_or_empty (l : list json) : py_iter (py_or (JList l) (JList [])) = Ok l.
Proof.
  destruct l; reflexivity.
Qed.

Lemma first_of_size_none (size : string) (l : list json) :
  Forall (other_size size) l -> first_of_size size l = Ok None.
Proof.
  induction 1 as [|x r Hx _ IH]; simpl.
  - reflexivity.
  - destruct x as [| | | | |kv]; try contradiction. simpl in *.
    destruct (lookup "type" kv) as [t |]; simpl.
    + now rewrite Hx.
    + exact IH.
Qed.

Lemma first_of_size_found (size : string) (before after : list json)
    (kv : list (string * json)) :
  Forall (other_size size) before ->
  lookup "type" kv = Some (JStr size) ->
  first_of_size size (before ++ JDict kv :: after) = Ok (Some (entry_url kv)).
Proof.
  intros Hb Ht. induction Hb as [|x r Hx _ IH]; simpl.
  - rewrite Ht. simpl. rewrite String.eqb_refl.
    fold (url_or_uri (JDict kv)). now rewrite url_or_uri_entry.
  - destruct x as [| | | | |kv']; try contradiction. simpl in *.
    destruct (lookup "type" kv') as [t |]; simpl.
    + now rewrite Hx.
    + exact IH.
Qed.

(** C7, as the code has it.  The first entry whose type is the requested
    size is chosen; with no such entry the first entry is; with no entry the
    result is "No URL available".  Within the chosen entry the "url" value is
    taken when it is non-empty, otherwise the "uri" value: a "url" key that
    is present with an empty value does not win. *)
Theorem photo_url_selection :
  _get_photo_url uris_thumbnail_web "web" = Ok (JStr "B")
  /\ (forall size, _get_photo_url (JList []) size = Ok (JStr "No URL available"))
  /\ _get_photo_url uris_thumbnail_only "web" = Ok (JStr "C")
  /\ (forall size before kv after,
        Forall (other_size size) before ->
        lookup "type" kv = Some (JStr size) ->
        _get_photo_url (JList (before ++ JDict kv :: after)) size = Ok (entry_url kv))
  /\ (forall size kv rest,
        Forall (other_size size) (JDict kv :: rest) ->
        _get_photo_url (JList (JDict kv :: rest)) size = Ok (entry_url kv)).
Proof.
  split; [reflexivity |]. split; [reflexivity |]. split; [reflexivity |]. split.
  - intros size before kv after Hb Ht. unfold _get_photo_url.
    rewrite iter_or_empty. cbn [rbind].
    now rewrite (first_of_size_found size before after kv Hb Ht).
  - intros size kv rest Hall. unfold _get_photo_url.
    rewrite iter_or_empty. cbn [rbind].
    rewrite (first_of_size_none size _ Hall). cbn [rbind truthy py_first].
    apply url_or_uri_entry.
Qed.

Lemma photo_url_selection_witness :
  _get_photo_url uris_thumbnail_web "web" = Ok (JStr "B")
  /\ _get_photo_url uris_empty_url "web" = Ok (JStr "C").
Proof.
  split.
  - exact (proj1 photo_url_selection).
  - exact (proj1 (proj2 (proj2 (proj2 photo_url_selection))) "web" []
             [("type", JStr "web"); ("url", JStr EmptyString); ("uri", JStr "C")] []
             (Forall_nil _) eq_refl).
Defined.

(** "The first present wins" does not hold as written: here the "url" key
    is present, and the result is the value of "uri". *)
Lemma photo_url_present_url_does_not_win :
  lookup "url" [("type", JStr "web"); ("url", JStr EmptyString); ("uri", JStr "C")]
  = Some (JStr EmptyString)
  /\ _get_photo_url uris_empty_url "web" = Ok (JStr "C").
Proof.
  split; reflexivity.
Qed.

(** ** C1: date filters *)

Lemma jan15_is_utc_midnight : days_from_civil 2025 1 15 * 86400 = jan15_utc.
Proof.
  reflexivity.
Qed.


Lemma lookup_add_date_other (env : Env) (k key : string) (d : option string)
    (ps ps' : list (string * json)) :
  String.eqb k key = false ->
  add_date env key d ps = Ok ps' -> lookup k ps' = lookup k ps.
Proof.
  intros Hk H. unfold add_date in H.
  destruct d as [s |]; [| now injection H as <-].
  destruct (String.eqb s EmptyString); [now injection H as <- |].
  destruct (fromisoformat (replace_Z s)) as [dt | e]; simpl in H; [| discriminate].
  injection H as <-. now apply lookup_dict_set_other.
Qed.

Lemma lookup_add_filter_other (k key : string) (v : option string)
    (ps : list (string * json)) :
  String.eqb k key = false -> lookup k (add_filter key v ps) = lookup k ps.
Proof.
  intros Hk. unfold add_filter.
  destruct v as [s |]; [| reflexivity].
  destruct (String.eqb s EmptyString); [reflexivity |].
  now apply lookup_dict_set_other.
Qed.

(** The requests [cc_list_project_photos] sends carry the query it built. *)
Lemma photos_request_params (env : Env) (net : Net) (p : ListProjectPhotosInput.t)
    (req : request) :
  In req (snd (run env net (ListProjectPhotos p))) ->
  photos_api_params env p = Ok (req_params req).
Proof.
  unfold run. cbn [run_tool]. rewrite photos_tool_run.
  destruct (photos_api_params env p) as [ps | e]; [| simpl; contradiction].
  destruct (_get_headers env) as [h | e]; simpl; [| contradiction].
  intros [<- | []]. reflexivity.
Qed.




(** ** C8: every outcome of a tool is a text *)


(** ** C3: no token, no request *)

(** C3, as the code has it.  Without a token no tool sends a request, and
    every tool returns an error text.  The text is the missing-token message
    of [_get_headers] behind "Error: ", except when [cc_list_project_photos]
    is given a date that does not parse: it fails on the date first. *)
Theorem no_token_no_request :
  forall (env : Env) (net : Net) (c : call),
    API_TOKEN env = EmptyString ->
    snd (run env net c) = []
    /\ (fst (run env net c) = Returned ("Error: " ++ missing_token_message)
        \/ exists p e,
             c = ListProjectPhotos p
             /\ photos_api_params env p = Raise e
             /\ fst (run env net c) = Returned (_handle_api_error e)).
Proof.
  intros env net c Ht.
  destruct (run_cases env net c)
    as [(p & e & Hc & Hp & H) | [[_ H] | [Hne _]]].
  - rewrite H. split; [reflexivity |]. right. exists p, e. now repeat split.
  - rewrite H. split; [reflexivity |]. now left.
  - contradiction.
Qed.

Lemma no_token_no_request_witness :
  snd (run env_no_token (net_ok (JList [])) (GetProject (GetProjectInput.mk "42"))) = []
  /\ (fst (run env_no_token (net_ok (JList [])) (GetProject (GetProjectInput.mk "42")))
      = Returned ("Error: " ++ missing_token_message)
      \/ exists p e,
           GetProject (GetProjectInput.mk "42") = ListProjectPhotos p
           /\ photos_api_params env_no_token p = Raise e
           /\ fst (run env_no_token (net_ok (JList []))
                     (GetProject (GetProjectInput.mk "42")))
              = Returned (_handle_api_error e)).
Proof.
  exact (no_token_no_request env_no_token (net_ok (JList []))
           (GetProject (GetProjectInput.mk "42")) eq_refl).
Defined.

(** Without a token, [cc_list_project_photos] with the start date "foo"
    returns the date error, and the text of the other tools is the message
    of [_get_headers], not "authentication not configured". *)
Lemma no_token_other_text :
  API_TOKEN env_no_token = EmptyString
  /\ run env_no_token (net_ok (JList [])) (ListProjectPhotos photos_bad_date)
     = (Returned "Error: Invalid isoformat string: 'foo'", [])
  /\ run env_no_token (net_ok (JList [])) (GetProject (GetProjectInput.mk "42"))
     = (Returned ("Error: COMPANYCAM_API_TOKEN environment variable is not set. "
                  ++ "Generate a token at app.companycam.com/access_tokens"), []).
Proof.
  repeat split; reflexivity.
Qed.

(** ** C4: the status table *)

(** C4, as the code has it.  When the reply to the request of a get-project
    call is a 404, the text is exactly "Error: Resource not found. Check the
    ID is correct."; when the reply to the request of a list operation is a
    429, the text is exactly "Error: Rate limit exceeded. Wait a moment and
    retry.". *)
Theorem status_messages :
  forall (env : Env) (net : Net) (c : call) (req : request)
         (text : string) (content : body),
    snd (run env net c) = [req] ->
    (tool_of c = t_get_project ->
     net req = Response 404 text content ->
     fst (run env net c)
     = Returned "Error: Resource not found. Check the ID is correct.")
    /\ (is_list_operation (tool_of c) = true ->
        net req = Response 429 text content ->
        fst (run env net c)
        = Returned "Error: Rate limit exceeded. Wait a moment and retry.").
Proof.
  intros env net c req text content Hlog. split; intros _ Hr.
  - rewrite (reply_fault_text env net c req (HTTPStatusError 404 text) Hlog);
      [reflexivity | now rewrite Hr].
  - rewrite (reply_fault_text env net c req (HTTPStatusError 429 text) Hlog);
      [reflexivity | now rewrite Hr].
Qed.

Lemma status_messages_witness :
  fst (run env_utc (net_status 404) (GetProject (GetProjectInput.mk "42")))
  = Returned "Error: Resource not found. Check the ID is correct.".
Proof.
  refine (proj1 (status_messages env_utc (net_status 404)
                   (GetProject (GetProjectInput.mk "42")) _ "{}" (JsonBody (JDict []))
                   eq_refl) eq_refl eq_refl).
Defined.

(** The texts are not "resource not found" and "rate limit exceeded,
    retry later". *)
Lemma status_messages_other_text :
  fst (run env_utc (net_status 404) (GetProject (GetProjectInput.mk "42")))
  = Returned "Error: Resource not found. Check the ID is correct."
  /\ fst (run env_utc (net_status 429) (ListUsers (ListUsersInput.mk 1 100)))
     = Returned "Error: Rate limit exceeded. Wait a moment and retry."
  /\ String.eqb "Error: Resource not found. Check the ID is correct."
       "resource not found" = false
  /\ String.eqb "Error: Rate limit exceeded. Wait a moment and retry."
       "rate limit exceeded, retry later" = false.
Proof.
  repeat split; reflexivity.
Qed.

(** ** C6: the "more results" hint *)

(** Where the hint is written: [cc_search_projects] and
    [cc_list_project_photos] end their text with it exactly when the answer
    has as many items as the page size. *)
Lemma search_projects_hint (params : SearchProjectsInput.t) (x : json)
    (r : list json) (summaries : list string) :
  rmap _format_project_summary (x :: r) = Ok summaries ->
  exists header,
    search_projects_text params (JList (x :: r)) =
    Ok (join nl
          ([header] ++ with_blank_lines summaries
           ++ (if Z.of_nat (List.length (x :: r)) =? SearchProjectsInput.per_page params
               then [more_results_hint (SearchProjectsInput.page params)]
               else []))%list).
Proof.
  intros Hs. eexists. unfold search_projects_text.
  cbn [truthy negb py_len py_iter rbind]. rewrite Hs. reflexivity.
Qed.

Lemma project_photos_hint (params : ListProjectPhotosInput.t) (x : json)
    (r : list json) (summaries : list string) :
  rmap _format_photo_summary (x :: r) = Ok summaries ->
  exists header,
    project_photos_text params (JList (x :: r)) =
    Ok (join nl
          ([header] ++ with_blank_lines summaries
           ++ (if Z.of_nat (List.length (x :: r))
                  =? ListProjectPhotosInput.per_page params
               then [more_photos_hint (ListProjectPhotosInput.page params)]
               else []))%list).
Proof.
  intros Hs. eexists. unfold project_photos_text.
  cbn [truthy negb py_len py_iter rbind]. rewrite Hs. reflexivity.
Qed.

(** C6.  [cc_list_users] asked for pages of one user and given one user
    returns a text without any hint of further results, while
    [cc_search_projects] in the same situation writes its hint. *)
Theorem list_users_full_page_without_hint :
  py_len one_user = Ok (ListUsersInput.per_page (ListUsersInput.mk 1 1))
  /\ (exists text,
        fst (run env_utc (net_ok one_user) (ListUsers (ListUsersInput.mk 1 1)))
        = Returned text
        /\ contains "may be available" text = false
        /\ contains "More" text = false)
  /\ (exists text,
        fst (run env_utc (net_ok one_project)
               (SearchProjects (SearchProjectsInput.mk "roof" 1 1)))
        = Returned text
        /\ contains "_More results may be available on page 2._" text = true).
Proof.
  split; [reflexivity |].
  split; eexists; repeat split; reflexivity.
Qed.

(** ** C5 and C10: pagination fields of the input models *)

Lemma int_field_set (a : args) (name : string) (n default ge : Z) (le : option Z) :
  int_field (dict_set name (AInt n) a) name default ge le =
  if n <? ge then inl (mk_verror name "greater_than_equal")
  else match le with
       | Some hi => if hi <? n then inl (mk_verror name "less_than_equal") else inr n
       | None => inr n
       end.
Proof.
  unfold int_field. now rewrite lookup_dict_set_same.
Qed.

Lemma int_field_set_other (a : args) (name k : string) (v : arg) (default ge : Z)
    (le : option Z) :
  String.eqb name k = false ->
  int_field (dict_set k v a) name default ge le = int_field a name default ge le.
Proof.
  intros H. unfold int_field. now rewrite lookup_dict_set_other.
Qed.

Lemma str_field_set_other (a : args) (name k : string) (v : arg)
    (lo hi : option Z) :
  String.eqb name k = false ->
  str_field (dict_set k v a) name lo hi = str_field a name lo hi.
Proof.
  intros H. unfold str_field. now rewrite lookup_dict_set_other.
Qed.

Lemma opt_str_field_set_other (a : args) (name k : string) (v : arg) :
  String.eqb name k = false ->
  opt_str_field (dict_set k v a) name = opt_str_field a name.
Proof.
  intros H. unfold opt_str_field. now rewrite lookup_dict_set_other.
Qed.

Lemma extra_forbidden_set (a : args) (k : string) (v : arg) (names : list string) :
  mem k names = true ->
  extra_forbidden (dict_set k v a) names = extra_forbidden a names.
Proof.
  intros Hk. induction a as [|[k' v'] r IH]; simpl.
  - now rewrite Hk.
  - destruct (String.eqb k k') eqn:E; simpl.
    + apply String.eqb_eq in E. subst k'. now rewrite Hk.
    + now rewrite IH.
Qed.

(** A key outside the model is reported. *)
Lemma extra_forbidden_reports (a : args) (k : string) (v : arg) (names : list string) :
  lookup k a = Some v -> mem k names = false -> extra_forbidden a names <> [].
Proof.
  intros Hl Hk. induction a as [|[k' v'] r IH]; simpl in *.
  - discriminate.
  - destruct (String.eqb k k') eqn:E.
    + apply String.eqb_eq in E. subst k'. rewrite Hk. discriminate.
    + destruct (mem k' names); [now apply IH | discriminate].
Qed.


(** The bounds of [per_page], [ge=1] and [le=100], on a given value. *)
Lemma per_page_out_of_range (a : args) (n default : Z) :
  n < 1 \/ 100 < n ->
  exists e, int_field (dict_set "per_page" (AInt n) a) "per_page" default 1 (Some 100)
            = inl e.
Proof.
  intros H. rewrite int_field_set.
  destruct (Z.ltb_spec n 1); [eexists; reflexivity |].
  destruct (Z.ltb_spec 100 n); [eexists; reflexivity | lia].
Qed.

Lemma per_page_in_range (a : args) (n default : Z) :
  1 <= n <= 100 ->
  int_field (dict_set "per_page" (AInt n) a) "per_page" default 1 (Some 100) = inr n.
Proof.
  intros H. rewrite int_field_set.
  destruct (Z.ltb_spec n 1); [lia |].
  destruct (Z.ltb_spec 100 n); [lia | reflexivity].
Qed.

(** Unfold the validator of a tool and move a [per_page] that was set out of
    the way of the other fields. *)
Ltac open_validate :=
  unfold validate, vmap,
    validate_SearchProjectsInput, validate_ListProjectPhotosInput,
    validate_ListProjectLabelsInput, validate_ListProjectCommentsInput,
    validate_ListUsersInput, validate_ListTagsInput in *;
  cbv zeta in *;
  repeat rewrite str_field_set_other by reflexivity;
  repeat rewrite opt_str_field_set_other by reflexivity;
  repeat rewrite (int_field_set_other _ "page" "per_page") by reflexivity;
  repeat rewrite extra_forbidden_set by reflexivity.

Ltac split_fields :=
  repeat match goal with
         | |- context [match str_field ?a ?n ?lo ?hi with _ => _ end] =>
             destruct (str_field a n lo hi)
         | |- context [match opt_str_field ?a ?n with _ => _ end] =>
             destruct (opt_str_field a n)
         | |- context [match int_field ?a ?n ?d ?g ?l with _ => _ end] =>
             destruct (int_field a n d g l)
         | |- context [match extra_forbidden ?a ?ns with _ => _ end] =>
             destruct (extra_forbidden a ns)
         | H : context [match str_field ?a ?n ?lo ?hi with _ => _ end] |- _ =>
             destruct (str_field a n lo hi)
         | H : context [match opt_str_field ?a ?n with _ => _ end] |- _ =>
             destruct (opt_str_field a n)
         | H : context [match int_field ?a ?n ?d ?g ?l with _ => _ end] |- _ =>
             destruct (int_field a n d g l)
         | H : context [match extra_forbidden ?a ?ns with _ => _ end] |- _ =>
             destruct (extra_forbidden a ns)
         end.

Lemma paginated_rejects (t : tool) (a : args) (n : Z) :
  is_paginated t = true ->
  n < 1 \/ 100 < n ->
  exists errs, validate t (dict_set "per_page" (AInt n) a) = Invalid errs.
Proof.
  intros Ht Hn.
  destruct t; try discriminate Ht; clear Ht; open_validate;
    match goal with
    | |- context [int_field (dict_set "per_page" (AInt n) a) "per_page" ?d 1 (Some 100)] =>
        destruct (per_page_out_of_range a n d Hn) as [e He]; rewrite He
    end;
    split_fields; eexists; reflexivity.
Qed.

Lemma paginated_accepts (t : tool) (a : args) (n : Z) (c : call) :
  is_paginated t = true ->
  1 <= n <= 100 ->
  validate t a = Valid c ->
  exists c', validate t (dict_set "per_page" (AInt n) a) = Valid c'
             /\ per_page_of c' = Some n.
Proof.
  intros Ht Hn Hv.
  destruct t; try discriminate Ht; clear Ht; open_validate;
    match goal with
    | |- context [int_field (dict_set "per_page" (AInt n) a) "per_page" ?d 1 (Some 100)] =>
        rewrite (per_page_in_range a n d Hn)
    end;
    split_fields; try discriminate Hv; eexists; split; reflexivity.
Qed.

Lemma labels_reject_pagination (a : args) (k : string) (v : arg) :
  k = "page" \/ k = "per_page" ->
  lookup k a = Some v ->
  exists errs, validate t_list_project_labels a = Invalid errs.
Proof.
  intros Hk Hl.
  assert (Hex : extra_forbidden a ["project_id"] <> []).
  { apply (extra_forbidden_reports a k v); [exact Hl |].
    destruct Hk as [-> | ->]; reflexivity. }
  unfold validate, vmap, validate_ListProjectLabelsInput. cbv zeta.
  destruct (extra_forbidden a ["project_id"]); [contradiction |].
  destruct (str_field a "project_id" (Some 1) None); eexists; reflexivity.
Qed.

(** The request of a call carries the call's page size under "per_page",
    and no such parameter when the call has none. *)
Lemma sent_per_page (env : Env) (net : Net) (c : call) (req : request) :
  In req (snd (run env net c)) ->
  lookup "per_page" (req_params req) = option_map JInt (per_page_of c).
Proof.
  destruct c;
    try (unfold run; cbn [run_tool];
         unfold cc_search_projects, cc_get_project, cc_get_photo,
           cc_list_project_labels, cc_list_project_comments, cc_list_users,
           cc_list_tags, cc_add_project_comment, cc_add_photo_tags,
           cc_add_project_labels, cc_update_project_notepad, cc_add_photo_comment;
         cbv zeta;
         first [ rewrite get_tool_run | rewrite post_tool_run
               | rewrite post_tool_const | rewrite put_tool_const ];
         destruct (_get_headers env); cbv zeta; cbn [snd In];
         [intros [<- | []]; reflexivity | intros []]).
  intros Hin. apply photos_request_params in Hin.
  unfold photos_api_params in Hin.
  destruct (add_date env "start_date" _ _) as [p1 | e] eqn:E1; [| discriminate].
  cbn [rbind] in Hin.
  destruct (add_date env "end_date" _ p1) as [p2 | e] eqn:E2; [| discriminate].
  cbn [rbind] in Hin. apply Ok_inj in Hin. rewrite <- Hin.
  rewrite !lookup_add_filter_other by reflexivity.
  rewrite (lookup_add_date_other env "per_page" "end_date" _ _ _ eq_refl E2).
  rewrite (lookup_add_date_other env "per_page" "start_date" _ _ _ eq_refl E1).
  reflexivity.
Qed.

(** C5, as the code has it.  For the five list operations that take
    pagination fields, a [per_page] below 1 or above 100 (0 and 101 among
    them) is refused before any request is sent, and a [per_page] from 1 to
    100 (1 and 100 among them) is accepted whenever the other arguments are
    valid.  [cc_list_project_labels] has no [per_page] field: it refuses the
    argument whatever its value. *)
Theorem per_page_bounds :
  forall (t : tool) (a : args) (n : Z),
    is_list_operation t = true ->
    let a' := dict_set "per_page" (AInt n) a in
    (is_paginated t = true ->
     (n < 1 \/ 100 < n ->
      exists errs,
        validate t a' = Invalid errs
        /\ forall env net, call_tool env net t a' = (ValidationError errs, []))
     /\ (1 <= n <= 100 ->
         forall c, validate t a = Valid c ->
                   exists c', validate t a' = Valid c' /\ per_page_of c' = Some n))
    /\ (is_paginated t = false ->
        exists errs,
          validate t a' = Invalid errs
          /\ forall env net, call_tool env net t a' = (ValidationError errs, [])).
Proof.
  intros t a n Hl a'. subst a'. split.
  - intros Hp. split.
    + intros Hn. destruct (paginated_rejects t a n Hp Hn) as [errs He].
      exists errs. split; [exact He |]. intros env net.
      unfold call_tool. now rewrite He.
    + intros Hn c Hv. exact (paginated_accepts t a n c Hp Hn Hv).
  - intros Hp.
    assert (Ht : t = t_list_project_labels) by (destruct t; discriminate || reflexivity).
    subst t.
    destruct (labels_reject_pagination (dict_set "per_page" (AInt n) a)
                "per_page" (AInt n)) as [errs He].
    + now right.
    + apply lookup_dict_set_same.
    + exists errs. split; [exact He |]. intros env net.
      unfold call_tool. now rewrite He.
Qed.

Lemma per_page_bounds_witness :
  (exists errs,
     validate t_list_users [("per_page", AInt 101)] = Invalid errs
     /\ forall env net,
          call_tool env net t_list_users [("per_page", AInt 101)]
          = (ValidationError errs, []))
  /\ (exists c', validate t_list_users [("per_page", AInt 100)] = Valid c'
                 /\ per_page_of c' = Some 100).
Proof.
  split.
  - refine (proj1 (proj1 (per_page_bounds t_list_users [] 101 eq_refl) eq_refl) _).
    right. reflexivity.
  - refine (proj2 (proj1 (per_page_bounds t_list_users [] 100 eq_refl) eq_refl) _
              (ListUsers (ListUsersInput.mk 1 100)) eq_refl).
    split; discriminate.
Defined.

(** Project label listing is a list operation and refuses the boundary
    values 1 and 100. *)
Lemma labels_refuse_per_page :
  is_list_operation t_list_project_labels = true
  /\ validate t_list_project_labels [("project_id", AStr "42")]
     = Valid (ListProjectLabels (ListProjectLabelsInput.mk "42"))
  /\ validate t_list_project_labels [("project_id", AStr "42"); ("per_page", AInt 1)]
     = Invalid [mk_verror "per_page" "extra_forbidden"]
  /\ validate t_list_project_labels [("project_id", AStr "42"); ("per_page", AInt 100)]
     = Invalid [mk_verror "per_page" "extra_forbidden"].
Proof.
  repeat split; reflexivity.
Qed.



(** * Further properties of the code *)

(** ** The requests of a tool *)

Lemma headers_ok (env : Env) (h : list (string * string)) :
  _get_headers env = Ok h ->
  API_TOKEN env <> EmptyString /\ h = standard_headers (API_TOKEN env).
Proof.
  unfold _get_headers.
  destruct (String.eqb (API_TOKEN env) EmptyString) eqn:E; [discriminate |].
  intros H. apply Ok_inj in H. split; [| now subst h].
  intros Ht. rewrite Ht in E. discriminate.
Qed.

Lemma prefix_app (s t : string) : prefix s (s ++ t) = true.
Proof.
  induction s as [|c r IH]; simpl.
  - now destruct t.
  - destruct (ascii_dec c c); [exact IH | contradiction].
Qed.

(** Bring the run of a call to the form of the [*_tool_run] lemmas. *)
Ltac open_tool :=
  unfold run; cbn [run_tool];
  first
    [ rewrite photos_tool_run
    | unfold cc_search_projects, cc_get_project, cc_get_photo,
        cc_list_project_labels, cc_list_project_comments, cc_list_users,
        cc_list_tags, cc_add_project_comment, cc_add_photo_tags,
        cc_add_project_labels, cc_update_project_notepad, cc_add_photo_comment;
      cbv zeta;
      first [ rewrite get_tool_run | rewrite post_tool_run
            | rewrite post_tool_const | rewrite put_tool_const ] ].

(** X1.  No tool retries or fans out: whatever the service answers, a call
    sends at most one request. *)
Theorem at_most_one_request :
  forall (env : Env) (net : Net) (c : call),
    (List.length (snd (run env net c)) <= 1)%nat.
Proof.
  exact run_at_most_one_request.
Qed.

(** X2.  Every request a tool sends goes to the CompanyCam base URL and
    carries the bearer token of the process with the two JSON headers; none
    is sent with an empty token. *)
Theorem requests_are_authenticated :
  forall (env : Env) (net : Net) (c : call) (req : request),
    In req (snd (run env net c)) ->
    API_TOKEN env <> EmptyString
    /\ req_headers req = standard_headers (API_TOKEN env)
    /\ prefix BASE_URL (req_url req) = true.
Proof.
  intros env net c req.
  destruct c; open_tool;
    try (destruct (photos_api_params env p); [| intros []]);
    (destruct (_get_headers env) as [h | e] eqn:Eh;
     [ cbv zeta; cbn [snd In]; intros [<- | []]; cbn [req_headers req_url];
       destruct (headers_ok env h Eh) as [Ht ->];
       (split; [exact Ht | split; [reflexivity | apply prefix_app]])
     | cbn [snd In]; intros [] ]).
Qed.

Lemma requests_are_authenticated_witness :
  API_TOKEN env_utc <> EmptyString
  /\ req_headers request_project_42 = standard_headers (API_TOKEN env_utc)
  /\ prefix BASE_URL (req_url request_project_42) = true.
Proof.
  refine (requests_are_authenticated env_utc (net_ok (JDict []))
            (GetProject (GetProjectInput.mk "42")) request_project_42 _).
  left. reflexivity.
Defined.

(** X3.  The eight read tools only ever send GET requests without a body;
    the comment, tag and label tools POST and the notepad tool PUTs, each
    with a JSON body and no query parameters. *)
Theorem request_method_by_tool :
  forall (env : Env) (net : Net) (c : call) (req : request),
    In req (snd (run env net c)) ->
    req_method req = method_of (tool_of c)
    /\ (req_method req = GET -> req_json req = None)
    /\ (req_method req <> GET -> req_params req = [] /\ req_json req <> None).
Proof.
  intros env net c req.
  destruct c; open_tool;
    try (destruct (photos_api_params env p); [| intros []]);
    (destruct (_get_headers env) as [h | e] eqn:Eh;
     [ cbv zeta; cbn [snd In]; intros [<- | []];
       cbn [req_method req_json req_params tool_of method_of];
       (split; [reflexivity
               | split; intros H;
                 [reflexivity || discriminate H
                 | first [ exfalso; apply H; reflexivity
                         | split; [reflexivity | discriminate] ]]])
     | cbn [snd In]; intros [] ]).
Qed.

Lemma request_method_by_tool_witness :
  req_method request_project_42 = method_of t_get_project
  /\ (req_method request_project_42 = GET -> req_json request_project_42 = None)
  /\ (req_method request_project_42 <> GET ->
      req_params request_project_42 = [] /\ req_json request_project_42 <> None).
Proof.
  refine (request_method_by_tool env_utc (net_ok (JDict []))
            (GetProject (GetProjectInput.mk "42")) request_project_42 _).
  left. reflexivity.
Defined.

(** ** The error texts *)

Lemma receive_ok (status : Z) (text : string) (data : json) :
  200 <= status <= 299 -> receive (Response status text (JsonBody data)) = Ok data.
Proof.
  intros H. unfold receive.
  destruct (Z.leb_spec 200 status); [| lia].
  destruct (Z.leb_spec status 299); [reflexivity | lia].
Qed.

Lemma receive_not_2xx (status : Z) (text : string) (content : body) :
  status < 200 \/ 299 < status ->
  receive (Response status text content) = Raise (HTTPStatusError status text).
Proof.
  intros H. unfold receive.
  destruct (Z.leb_spec 200 status); [| reflexivity].
  destruct (Z.leb_spec status 299); [lia | reflexivity].
Qed.

Lemma handler_prefix (e : exn) : exists rest, _handle_api_error e = "Error: " ++ rest.
Proof.
  destruct e as [status text | msg | msg | cls msg]; simpl.
  - destruct (status =? 401); [eexists; reflexivity |].
    destruct (status =? 403); [eexists; reflexivity |].
    destruct (status =? 404); [eexists; reflexivity |].
    destruct (status =? 429); eexists; reflexivity.
  - eexists; reflexivity.
  - eexists; reflexivity.
  - eexists; reflexivity.
Qed.

(** X4.  A reply whose status is outside 200..299 never reaches the
    projection: whatever its body, the tool returns the handler's text for
    that status, and the text starts with "Error: ". *)
Theorem non_2xx_is_error_text :
  forall (env : Env) (net : Net) (c : call) (req : request)
         (status : Z) (text : string) (content : body),
    snd (run env net c) = [req] ->
    net req = Response status text content ->
    status < 200 \/ 299 < status ->
    fst (run env net c) = Returned (_handle_api_error (HTTPStatusError status text))
    /\ exists rest, _handle_api_error (HTTPStatusError status text) = "Error: " ++ rest.
Proof.
  intros env net c req status text content Hlog Hnet Hs. split.
  - apply (reply_fault_text env net c req _ Hlog).
    rewrite Hnet. now apply receive_not_2xx.
  - apply handler_prefix.
Qed.

Lemma non_2xx_is_error_text_witness :
  fst (run env_utc (net_status 500) (GetProject (GetProjectInput.mk "42")))
  = Returned (_handle_api_error (HTTPStatusError 500 "{}"))
  /\ exists rest, _handle_api_error (HTTPStatusError 500 "{}") = "Error: " ++ rest.
Proof.
  refine (non_2xx_is_error_text env_utc (net_status 500)
            (GetProject (GetProjectInput.mk "42")) request_project_42
            500 "{}" (JsonBody (JDict [])) eq_refl eq_refl _).
  right. reflexivity.
Defined.






(** X6.  The rest of the fault table, at the level of a tool: a 401 and a
    403 have their fixed texts; a client timeout gives the timeout text
    whatever its message; a 2xx body that is not JSON gives the decoder's
    message; any other exception of the client is shown with its class
    name. *)
Theorem fault_texts :
  forall (env : Env) (net : Net) (c : call) (req : request),
    snd (run env net c) = [req] ->
    (forall text content,
       net req = Response 401 text content ->
       fst (run env net c)
       = Returned "Error: Authentication failed. Check your COMPANYCAM_API_TOKEN.")
    /\ (forall text content,
          net req = Response 403 text content ->
          fst (run env net c)
          = Returned ("Error: Permission denied. Ensure your account has API access "
                      ++ "(Pro+ plan, Admin role)."))
    /\ (forall msg,
          net req = Fault (TimeoutException msg) ->
          fst (run env net c) = Returned "Error: Request timed out. Try again.")
    /\ (forall status text msg,
          200 <= status <= 299 ->
          net req = Response status text (NotJson msg) ->
          fst (run env net c) = Returned ("Error: " ++ msg))
    /\ (forall cls msg,
          net req = Fault (OtherException cls msg) ->
          fst (run env net c) = Returned ("Error: " ++ cls ++ ": " ++ msg)).
Proof.
  intros env net c req Hlog.
  repeat split; intros.
  - rewrite (reply_fault_text env net c req (HTTPStatusError 401 text) Hlog);
      [reflexivity | now rewrite H].
  - rewrite (reply_fault_text env net c req (HTTPStatusError 403 text) Hlog);
      [reflexivity | now rewrite H].
  - rewrite (reply_fault_text env net c req (TimeoutException msg) Hlog);
      [reflexivity | now rewrite H].
  - rewrite (reply_fault_text env net c req (ValueError msg) Hlog);
      [reflexivity |].
    rewrite H0. unfold receive.
    destruct (Z.leb_spec 200 status); [| lia].
    destruct (Z.leb_spec status 299); [reflexivity | lia].
  - rewrite (reply_fault_text env net c req (OtherException cls msg) Hlog);
      [reflexivity | now rewrite H].
Qed.

Lemma fault_texts_witness :
  fst (run env_utc (net_fault (TimeoutException "read timeout"))
         (GetProject (GetProjectInput.mk "42")))
  = Returned "Error: Request timed out. Try again.".
Proof.
  refine (proj1 (proj2 (proj2 (fault_texts env_utc
                                 (net_fault (TimeoutException "read timeout"))
                                 (GetProject (GetProjectInput.mk "42"))
                                 request_project_42 eq_refl)))
            "read timeout" eq_refl).
Defined.

(** ** Answers and their projection *)

Lemma singleton_inj {A : Type} (a b : A) : [a] = [b] -> a = b.
Proof.
  intros H. now injection H.
Qed.

(** After [open_tool], with the log equation [Hlog] and the reply [Hnet] of
    a 2xx JSON answer: replace the transport by the answer. *)
Ltac with_answer Hlog Hnet Hrange :=
  destruct (_get_headers _) as [? | ?]; [| discriminate Hlog];
  cbv zeta in Hlog |- *; cbn [snd fst] in Hlog |- *;
  apply singleton_inj in Hlog; rewrite Hlog, Hnet, (receive_ok _ _ _ Hrange);
  cbn [rbind].

(** X7.  A list tool given an answer that holds nothing (an empty list, but
    also [null], an empty object, 0 or an empty string) reports that nothing
    was found; it does not fail on the shape of the answer. *)
Theorem empty_answer_text :
  forall (env : Env) (net : Net) (c : call) (req : request)
         (status : Z) (text : string) (data : json) (msg : string),
    snd (run env net c) = [req] ->
    net req = Response status text (JsonBody data) ->
    200 <= status <= 299 ->
    truthy data = false ->
    nothing_found c = Some msg ->
    fst (run env net c) = Returned msg.
Proof.
  intros env net c req status text data msg Hlog Hnet Hrange Hfalsy Hmsg.
  revert Hlog.
  destruct c; try discriminate Hmsg; apply (f_equal (fun o => match o with
                                                            | Some s => s
                                                            | None => EmptyString
                                                            end)) in Hmsg;
    cbn [nothing_found] in Hmsg; subst msg;
    open_tool;
    try (destruct (photos_api_params env p); [| intros Hlog; discriminate Hlog]);
    intros Hlog; with_answer Hlog Hnet Hrange;
    try unfold search_projects_text; try unfold project_photos_text;
    cbv zeta; rewrite Hfalsy; reflexivity.
Qed.

Lemma empty_answer_text_witness :
  fst (run env_utc (net_ok JNull) (ListUsers (ListUsersInput.mk 1 100)))
  = Returned "No users found.".
Proof.
  refine (empty_answer_text env_utc (net_ok JNull) (ListUsers (ListUsersInput.mk 1 100))
            (mk_request GET "https://api.companycam.com/v2/users"
               (standard_headers "secret") [("page", JInt 1); ("per_page", JInt 100)] None)
            200 "(json)" JNull "No users found." eq_refl eq_refl _ eq_refl eq_refl).
  split; discriminate.
Defined.

(** X8.  A project or photo object that lacks every field the summary
    reads is still summarised, with the placeholders "Unnamed", "?", "No
    address", "N/A", "Unknown" and "No URL available"; keys the summary does
    not read make no difference. *)
Theorem summaries_of_bare_objects :
  forall (kv : list (string * json)),
    ((forall k, In k project_keys -> lookup k kv = None) ->
     _format_project_summary (JDict kv)
     = Ok ("**Unnamed** (ID: ?)" ++ nl ++ "  Status: ?" ++ nl
           ++ "  Address: No address" ++ nl ++ "  Created: N/A | Updated: N/A"))
    /\ ((forall k, In k photo_keys -> lookup k kv = None) ->
        _format_photo_summary (JDict kv)
        = Ok ("Photo ? — by Unknown on N/A" ++ nl ++ "  Image: No URL available")).
Proof.
  intros kv. split; intros H.
  - unfold _format_project_summary. cbn [py_get].
    repeat match goal with
           | |- context [lookup ?k kv] =>
               rewrite (H k) by (unfold project_keys; simpl; tauto)
           end.
    reflexivity.
  - unfold _format_photo_summary. cbn [py_get].
    repeat match goal with
           | |- context [lookup ?k kv] =>
               rewrite (H k) by (unfold photo_keys; simpl; tauto)
           end.
    reflexivity.
Qed.

Lemma summaries_of_bare_objects_witness :
  _format_project_summary (JDict [("company_id", JStr "3")])
  = Ok ("**Unnamed** (ID: ?)" ++ nl ++ "  Status: ?" ++ nl
        ++ "  Address: No address" ++ nl ++ "  Created: N/A | Updated: N/A").
Proof.
  refine (proj1 (summaries_of_bare_objects [("company_id", JStr "3")]) _).
  intros k Hk. unfold project_keys in Hk. simpl in Hk.
  repeat (destruct Hk as [<- | Hk]; [reflexivity |]). contradiction.
Defined.

(** X9.  When the answer of a tool that reads one object is not a JSON
    object (a list, a string, a number, [null]), the tool reports the
    AttributeError of the first [.get] with the type of the answer. *)
Theorem wrong_shape_is_reported :
  forall (env : Env) (net : Net) (c : call) (req : request)
         (status : Z) (text : string) (data : json),
    snd (run env net c) = [req] ->
    net req = Response status text (JsonBody data) ->
    200 <= status <= 299 ->
    reads_object c = true ->
    is_dict data = false ->
    fst (run env net c)
    = Returned ("Error: AttributeError: " ++ squote ++ type_name data ++ squote
                ++ " object has no attribute 'get'").
Proof.
  intros env net c req status text data Hlog Hnet Hrange Hc Hd.
  revert Hlog.
  destruct c; try discriminate Hc; open_tool; intros Hlog;
    with_answer Hlog Hnet Hrange;
    destruct data; try discriminate Hd; reflexivity.
Qed.

Lemma wrong_shape_is_reported_witness :
  fst (run env_utc (net_ok (JList [])) (GetProject (GetProjectInput.mk "42")))
  = Returned ("Error: AttributeError: " ++ squote ++ type_name (JList []) ++ squote
              ++ " object has no attribute 'get'").
Proof.
  refine (wrong_shape_is_reported env_utc (net_ok (JList []))
            (GetProject (GetProjectInput.mk "42")) request_project_42
            200 "(json)" (JList []) eq_refl eq_refl _ eq_refl eq_refl).
  split; discriminate.
Defined.

(** X10.  [_get_photo_url] answers "No URL available" for every falsy list
    of URIs, [None] included: a photo whose "uris" is [null] (or an empty
    list, object or string) does not break [_format_photo_summary], whose
    image line then reads "  Image: No URL available". *)
Theorem photo_url_of_nothing :
  forall (uris : json) (size : string),
    truthy uris = false ->
    _get_photo_url uris size = Ok (JStr "No URL available")
    /\ forall (kv : list (string * json)) (s : string),
         lookup "uris" kv = Some uris ->
         _format_photo_summary (JDict kv) = Ok s ->
         exists lines, s = join nl lines /\ In "  Image: No URL available" lines.
Proof.
  intros uris size H.
  assert (Hu : forall sz, _get_photo_url uris sz = Ok (JStr "No URL available")).
  { intros sz. unfold _get_photo_url, py_or. rewrite H. reflexivity. }
  split; [apply Hu |].
  intros kv s Hl Hs.
  unfold _format_photo_summary in Hs. cbn [py_get] in Hs. rewrite Hl in Hs.
  repeat match type of Hs with
         | rbind (_get_photo_url uris _) _ = _ => rewrite Hu in Hs; cbn [rbind] in Hs
         | rbind (Ok _) _ = _ => cbn [rbind] in Hs
         | rbind ?c _ = _ => destruct c eqn:?; [cbn [rbind] in Hs | discriminate Hs]
         end.
  apply Ok_inj in Hs. eexists. split; [symmetry; exact Hs |].
  apply in_or_app. right. apply in_or_app. right. apply in_or_app. left.
  left. reflexivity.
Qed.

Lemma photo_url_of_nothing_witness :
  _get_photo_url JNull "web" = Ok (JStr "No URL available")
  /\ forall (kv : list (string * json)) (s : string),
       lookup "uris" kv = Some JNull ->
       _format_photo_summary (JDict kv) = Ok s ->
       exists lines, s = join nl lines /\ In "  Image: No URL available" lines.
Proof.
  exact (photo_url_of_nothing JNull "web" eq_refl).
Defined.

(** X11.  For a non-empty address object whose five fields are strings or
    absent, [_format_address] returns the non-empty fields joined with ", "
    in the order street 1, street 2, city, state, postal code. *)
Theorem format_address_joins_fields :
  forall (kv : list (string * json)) (a1 a2 c s p : string),
    kv <> [] ->
    field_text kv "street_address_1" = Some a1 ->
    field_text kv "street_address_2" = Some a2 ->
    field_text kv "city" = Some c ->
    field_text kv "state" = Some s ->
    field_text kv "postal_code" = Some p ->
    _format_address (JDict kv) = Ok (join ", " (nonempty_fields [a1; a2; c; s; p])).
Proof.
  exact format_address_joins.
Qed.

Lemma format_address_joins_fields_witness :
  _format_address (JDict [("street_address_1", JStr "1 Main St");
                          ("city", JStr "Omaha"); ("state", JStr "NE")])
  = Ok (join ", " (nonempty_fields ["1 Main St"; EmptyString; "Omaha"; "NE"; EmptyString])).
Proof.
  refine (format_address_joins_fields
            [("street_address_1", JStr "1 Main St");
             ("city", JStr "Omaha"); ("state", JStr "NE")]
            "1 Main St" EmptyString "Omaha" "NE" EmptyString
            _ eq_refl eq_refl eq_refl eq_refl eq_refl).
  discriminate.
Defined.

Lemma join_items_raises (l : list json) (i : nat) :
  (exists v, In v l /\ is_str v = false) ->
  exists msg, join_items i l = Raise (TypeError msg).
Proof.
  revert i. induction l as [|x r IH]; intros i [v [Hin Hv]].
  - contradiction.
  - destruct x as [| b | z | s | l' | kv']; try (eexists; reflexivity).
    simpl. destruct Hin as [<- | Hin]; [discriminate |].
    destruct (IH (S i) (ex_intro _ v (conj Hin Hv))) as [msg Hm].
    rewrite Hm. eexists. reflexivity.
Qed.

(** X12.  An address field that holds a non-empty value which is not a
    string (a postal code sent as a number) makes [_format_address] raise a
    TypeError; through [_format_project_summary] the whole project summary
    is lost to that error. *)
Theorem format_address_needs_strings :
  forall (kv : list (string * json)) (k : string) (v : json),
    In k address_keys ->
    lookup k kv = Some v ->
    truthy v = true ->
    is_str v = false ->
    (exists msg, _format_address (JDict kv) = Raise (TypeError msg))
    /\ forall rest,
         lookup "address" rest = Some (JDict kv) ->
         exists msg, _format_project_summary (JDict rest) = Raise (TypeError msg).
Proof.
  intros kv k v Hk Hl Ht Hs.
  assert (Hraise : exists msg, _format_address (JDict kv) = Raise (TypeError msg)).
  { unfold _format_address.
    destruct kv as [|x r]; [discriminate Hl |]. cbn [truthy negb py_get rbind].
    unfold py_join.
    match goal with
    | |- context [join_items 0 ?l] =>
        destruct (join_items_raises l 0) as [msg Hm]
    end.
    - exists v. split; [| exact Hs]. apply filter_In. split; [| exact Ht].
      unfold address_keys in Hk. simpl in Hk.
      destruct Hk as [<- | [<- | [<- | [<- | [<- | []]]]]]; rewrite Hl; simpl; tauto.
    - rewrite Hm. eexists. reflexivity. }
  split; [exact Hraise |].
  intros rest Hrest. destruct Hraise as [msg Hm].
  unfold _format_project_summary. cbn [py_get rbind]. rewrite Hrest, Hm.
  eexists. reflexivity.
Qed.

Lemma format_address_needs_strings_witness :
  exists msg, _format_address sample_address = Raise (TypeError msg).
Proof.
  exact (proj1 (format_address_needs_strings
                  [("street_address_1", JStr "1 Main St");
                   ("street_address_2", JStr EmptyString);
                   ("city", JStr "Omaha"); ("state", JStr "NE");
                   ("postal_code", JInt 68102)]
                  "postal_code" (JInt 68102)
                  (or_intror (or_intror (or_intror (or_intror (or_introl eq_refl)))))
                  eq_refl eq_refl eq_refl)).
Defined.









Lemma Some_inj {A : Type} (a b : A) : Some a = Some b -> a = b.
Proof.
  intros H. now injection H.
Qed.





(** X16.  [cc_add_photo_tags] confirms with the names the service sends
    back when it answers with a non-empty list of tag objects, and with the
    names that were requested for every other answer. *)
Theorem photo_tags_echo :
  forall (env : Env) (net : Net) (p : AddPhotoTagsInput.t) (req : request)
         (status : Z) (text : string) (data : json),
    snd (run env net (AddPhotoTags p)) = [req] ->
    net req = Response status text (JsonBody data) ->
    200 <= status <= 299 ->
    ((forall x r, data <> JList (x :: r)) ->
     fst (run env net (AddPhotoTags p))
     = Returned ("Tags added to photo " ++ AddPhotoTagsInput.photo_id p ++ ": "
                 ++ join ", " (AddPhotoTagsInput.tags p)))
    /\ (forall x r names,
          data = JList (x :: r) ->
          rmap (fun t => py_get t "display_value" (JStr "?")) (x :: r)
          = Ok (map JStr names) ->
          fst (run env net (AddPhotoTags p))
          = Returned ("Tags added to photo " ++ AddPhotoTagsInput.photo_id p ++ ": "
                      ++ join ", " names)).
Proof.
  intros env net p req status text data Hlog Hnet Hrange.
  revert Hlog. open_tool. intros Hlog. with_answer Hlog Hnet Hrange.
  split.
  - intros Hd.
    assert (E : match data with
                | JList (x :: r) =>
                    rmap (fun t => py_get t "display_value" (JStr "?")) (x :: r)
                | _ => Ok (map JStr (AddPhotoTagsInput.tags p))
                end = Ok (map JStr (AddPhotoTagsInput.tags p))).
    { destruct data as [| | | | l |]; try reflexivity.
      destruct l as [|x r]; [reflexivity |]. now destruct (Hd x r). }
    rewrite E. cbn [rbind]. unfold py_join. rewrite join_items_strings. reflexivity.
  - intros x r names -> Hr. rewrite Hr. cbn [rbind]. unfold py_join.
    rewrite join_items_strings. reflexivity.
Qed.

Lemma photo_tags_echo_witness :
  fst (run env_utc (net_ok (JDict [])) (AddPhotoTags tags_reviewed))
  = Returned ("Tags added to photo " ++ AddPhotoTagsInput.photo_id tags_reviewed ++ ": "
              ++ join ", " (AddPhotoTagsInput.tags tags_reviewed)).
Proof.
  refine (proj1 (photo_tags_echo env_utc (net_ok (JDict [])) tags_reviewed
                   request_tags_reviewed 200 "(json)" (JDict []) eq_refl eq_refl _) _).
  - split; discriminate.
  - discriminate.
Defined.



(** ** Validation *)

Ltac open_validate_all :=
  unfold validate, vmap,
    validate_SearchProjectsInput, validate_GetProjectInput,
    validate_ListProjectPhotosInput, validate_GetPhotoInput,
    validate_ListProjectLabelsInput, validate_ListProjectCommentsInput,
    validate_ListUsersInput, validate_ListTagsInput,
    validate_AddProjectCommentInput, validate_AddPhotoTagsInput,
    validate_AddProjectLabelsInput, validate_UpdateNotepadInput,
    validate_AddPhotoCommentInput in *;
  cbv zeta in *.

Ltac split_all_fields :=
  repeat match goal with
         | |- context [match strs_field ?a ?n with _ => _ end] =>
             destruct (strs_field a n)
         | H : context [match strs_field ?a ?n with _ => _ end] |- _ =>
             destruct (strs_field a n)
         | _ => progress split_fields
         end.

Lemma extra_forbidden_In (a : args) (k : string) (v : arg) (names : list string) :
  lookup k a = Some v ->
  mem k names = false ->
  In (mk_verror k "extra_forbidden") (extra_forbidden a names).
Proof.
  intros Hl Hk. induction a as [|[k' v'] r IH]; simpl in *.
  - discriminate.
  - destruct (String.eqb k k') eqn:E.
    + apply String.eqb_eq in E. subst k'. rewrite Hk. now left.
    + destruct (mem k' names); [now apply IH | right; now apply IH].
Qed.

(** X18.  Every input model is closed: an argument whose name is not a
    field of the tool's model makes the call fail validation with an
    "extra_forbidden" error for that name, and nothing is sent. *)
Theorem unknown_field_is_refused :
  forall (env : Env) (net : Net) (t : tool) (a : args) (k : string) (v : arg),
    lookup k a = Some v ->
    mem k (fields_of t) = false ->
    exists errs,
      call_tool env net t a = (ValidationError errs, [])
      /\ In (mk_verror k "extra_forbidden") errs.
Proof.
  intros env net t a k v Hl Hk.
  pose proof (extra_forbidden_In a k v (fields_of t) Hl Hk) as Hin.
  unfold call_tool.
  destruct t; cbn [fields_of] in Hin; open_validate_all; revert Hin;
    match goal with
    | |- In _ ?ex -> _ => destruct ex as [|e0 ex']; [intros [] | intros Hin]
    end;
    split_all_fields; eexists;
    (split; [reflexivity
            | simpl in Hin |- *; repeat rewrite in_app_iff; simpl; tauto]).
Qed.

Lemma unknown_field_is_refused_witness :
  exists errs,
    call_tool env_utc (net_ok (JList [])) t_get_project
      [("project_id", AStr "42"); ("verbose", AInt 1)]
    = (ValidationError errs, [])
    /\ In (mk_verror "verbose" "extra_forbidden") errs.
Proof.
  exact (unknown_field_is_refused env_utc (net_ok (JList [])) t_get_project
           [("project_id", AStr "42"); ("verbose", AInt 1)] "verbose" (AInt 1)
           eq_refl eq_refl).
Defined.

Lemma rtrim_idem (s : string) : rtrim (rtrim s) = rtrim s.
Proof.
  induction s as [|c r IH]; [reflexivity |].
  simpl. destruct (rtrim r) as [|d t] eqn:E.
  - destruct (is_trim_space c) eqn:Ec; [reflexivity |].
    simpl. now rewrite Ec.
  - change (rtrim (String c (String d t)))
      with (match rtrim (String d t) with
            | EmptyString => if is_trim_space c then EmptyString else String c EmptyString
            | r' => String c r'
            end).
    now rewrite IH.
Qed.

Lemma ltrim_head (s : string) :
  match ltrim s with
  | EmptyString => True
  | String c _ => is_trim_space c = false
  end.
Proof.
  induction s as [|c r IH]; simpl; [exact I |].
  destruct (is_trim_space c) eqn:E; [exact IH | exact E].
Qed.

Lemma rtrim_keeps_head (c : ascii) (r : string) :
  is_trim_space c = false -> exists r', rtrim (String c r) = String c r'.
Proof.
  intros Hc. simpl. destruct (rtrim r).
  - rewrite Hc. eexists. reflexivity.
  - eexists. reflexivity.
Qed.

Lemma trim_idem (s : string) : trim (trim s) = trim s.
Proof.
  unfold trim. pose proof (ltrim_head s) as H.
  destruct (ltrim s) as [|c r]; [reflexivity |].
  destruct (rtrim_keeps_head c r H) as [r' Hr]. rewrite Hr.
  assert (E : ltrim (String c r') = String c r') by (simpl; now rewrite H).
  rewrite E, <- Hr. apply rtrim_idem.
Qed.

Lemma str_field_min1 (a : args) (name : string) (hi : option Z) (i : string) :
  str_field a name (Some 1) hi = inr i -> i <> EmptyString /\ trim i = i.
Proof.
  unfold str_field. destruct (lookup name a) as [[z | s | l |] |]; try discriminate.
  unfold check_length.
  destruct (Z.ltb_spec (strlen (trim s)) 1) as [Hlt | Hge]; [discriminate |].
  intros H.
  assert (E : i = trim s).
  { destruct hi as [h |]; [destruct (h <? strlen (trim s)); [discriminate |] |];
      now injection H. }
  subst i. split; [| apply trim_idem].
  intros E. rewrite E in Hge. unfold strlen in Hge. simpl in Hge. lia.
Qed.

(** X19.  The project or photo id of a validated call is never empty and
    has no white space around it: an id made of blanks is refused, so no
    request path is built from an empty id. *)
Theorem validated_id_is_not_blank :
  forall (t : tool) (a : args) (c : call) (i : string),
    validate t a = Valid c ->
    id_of c = Some i ->
    i <> EmptyString /\ trim i = i.
Proof.
  intros t a c i Hv Hi.
  destruct t; open_validate_all;
    try match type of Hv with
        | context [str_field a ?n (Some 1) None] =>
            destruct (str_field a n (Some 1) None) as [e | i0] eqn:Eid
        end;
    split_all_fields; try discriminate Hv;
    injection Hv as <-; cbn [id_of] in Hi; try discriminate Hi;
    injection Hi as <-; cbn; exact (str_field_min1 _ _ _ _ Eid).
Qed.

Lemma validated_id_is_not_blank_witness :
  "42" <> EmptyString /\ trim "42" = "42".
Proof.
  exact (validated_id_is_not_blank t_get_project [("project_id", AStr "  42 ")]
           (GetProject (GetProjectInput.mk "42")) "42" eq_refl eq_refl).
Defined.

Lemma int_field_bounds (a : args) (name : string) (default ge : Z) (le : option Z)
    (z : Z) :
  int_field a name default ge le = inr z ->
  ge <= default ->
  (forall hi, le = Some hi -> default <= hi) ->
  ge <= z /\ (forall hi, le = Some hi -> z <= hi).
Proof.
  unfold int_field. intros H Hd Hhi.
  destruct (lookup name a) as [[n | s | l |] |]; try discriminate.
  - destruct (Z.ltb_spec n ge); [discriminate |].
    destruct le as [h |].
    + destruct (Z.ltb_spec h n); [discriminate |].
      injection H as <-. split; [lia |]. intros hi E. injection E as <-. lia.
    + injection H as <-. split; [lia |]. discriminate.
  - injection H as <-. split; [exact Hd | exact Hhi].
Qed.

Lemma validated_pagination (t : tool) (a : args) (c : call) :
  validate t a = Valid c ->
  (forall n, per_page_of c = Some n -> 1 <= n <= 100)
  /\ (forall m, page_of c = Some m -> 1 <= m).
Proof.
  intros Hv.
  destruct t; open_validate_all;
    try match type of Hv with
        | context [int_field a "per_page" ?d 1 (Some 100)] =>
            destruct (int_field a "per_page" d 1 (Some 100)) as [e1 | pp] eqn:Epp
        end;
    try match type of Hv with
        | context [int_field a "page" 1 1 None] =>
            destruct (int_field a "page" 1 1 None) as [e2 | pg] eqn:Epg
        end;
    split_all_fields; try discriminate Hv; injection Hv as <-;
    cbn [per_page_of page_of]; (split; intros n Hn; try discriminate Hn);
    injection Hn as <-.
  all: try (apply int_field_bounds in Epp;
            [ destruct Epp as [H1 H2]; split; [exact H1 | now apply H2]
            | unfold DEFAULT_PER_PAGE; lia
            | intros hi E; injection E as <-; unfold DEFAULT_PER_PAGE; lia ]).
  all: apply int_field_bounds in Epg;
    [ now destruct Epg | lia | discriminate ].
Qed.

(** The request of a call carries the call's page under "page". *)
Lemma sent_page (env : Env) (net : Net) (c : call) (req : request) :
  In req (snd (run env net c)) ->
  lookup "page" (req_params req) = option_map JInt (page_of c).
Proof.
  destruct c;
    try (open_tool;
         destruct (_get_headers env); cbv zeta; cbn [snd In];
         [intros [<- | []]; reflexivity | intros []]).
  intros Hin. apply photos_request_params in Hin.
  unfold photos_api_params in Hin.
  destruct (add_date env "start_date" _ _) as [p1 | e] eqn:E1; [| discriminate].
  cbn [rbind] in Hin.
  destruct (add_date env "end_date" _ p1) as [p2 | e] eqn:E2; [| discriminate].
  cbn [rbind] in Hin. apply Ok_inj in Hin. rewrite <- Hin.
  rewrite !lookup_add_filter_other by reflexivity.
  rewrite (lookup_add_date_other env "page" "end_date" _ _ _ eq_refl E2).
  rewrite (lookup_add_date_other env "page" "start_date" _ _ _ eq_refl E1).
  reflexivity.
Qed.

(** X20.  Whatever arguments the host passes, a request that leaves the
    server through [call_tool] never carries a "per_page" outside 1..100 or
    a "page" below 1. *)
Theorem requests_respect_pagination_bounds :
  forall (env : Env) (net : Net) (t : tool) (a : args) (req : request),
    In req (snd (call_tool env net t a)) ->
    (forall n, lookup "per_page" (req_params req) = Some (JInt n) -> 1 <= n <= 100)
    /\ (forall m, lookup "page" (req_params req) = Some (JInt m) -> 1 <= m).
Proof.
  intros env net t a req. unfold call_tool.
  destruct (validate t a) as [c | errs] eqn:Ev; [| intros []].
  intros Hin. destruct (validated_pagination t a c Ev) as [Hpp Hpg]. split.
  - intros n Hn. rewrite (sent_per_page env net c req Hin) in Hn.
    destruct (per_page_of c) as [n' |]; [| discriminate Hn].
    injection Hn as <-. now apply Hpp.
  - intros m Hm. rewrite (sent_page env net c req Hin) in Hm.
    destruct (page_of c) as [m' |]; [| discriminate Hm].
    injection Hm as <-. now apply Hpg.
Qed.

Lemma requests_respect_pagination_bounds_witness :
  (forall n, lookup "per_page" (req_params request_search_roof) = Some (JInt n) ->
             1 <= n <= 100)
  /\ (forall m, lookup "page" (req_params request_search_roof) = Some (JInt m) ->
                1 <= m).
Proof.
  refine (requests_respect_pagination_bounds env_utc (net_ok (JList []))
            t_search_projects
            [("query", AStr "roof"); ("page", AInt 1); ("per_page", AInt 1)]
            request_search_roof _).
  left. reflexivity.
Defined.



(** ** The query of photo listing *)

Lemma Raise_inj {A : Type} (a b : exn) : @Raise A a = Raise b -> a = b.
Proof.
  intros H. now injection H.
Qed.

Lemma fromisoformat_raises_ValueError (s : string) (e : exn) :
  fromisoformat s = Raise e -> exists msg, e = ValueError msg.
Proof.
  unfold fromisoformat, check_fields, check_offset, invalid_isoformat.
  intros H.
  repeat match type of H with
         | context [match ?x with _ => _ end] => destruct x
         end;
    cbn [rbind] in H;
    repeat match type of H with
           | context [match ?x with _ => _ end] => destruct x
           end;
    try discriminate H; apply Raise_inj in H; subst e; eexists; reflexivity.
Qed.

Lemma add_date_raises_ValueError (env : Env) (key : string) (d : option string)
    (ps : list (string * json)) (e : exn) :
  add_date env key d ps = Raise e -> exists msg, e = ValueError msg.
Proof.
  unfold add_date. destruct d as [s |]; [| discriminate].
  destruct (String.eqb s EmptyString); [discriminate |].
  destruct (fromisoformat (replace_Z s)) as [dt | e'] eqn:E; cbn [rbind];
    [discriminate |].
  intros H. apply Raise_inj in H. subst e'.
  exact (fromisoformat_raises_ValueError _ _ E).
Qed.

(** X22.  A start or end date that does not parse ends
    [cc_list_project_photos] before anything is sent, with or without a
    token: the tool returns the parser's ValueError message behind
    "Error: ". *)
Theorem bad_date_sends_nothing :
  forall (env : Env) (net : Net) (p : ListProjectPhotosInput.t) (e : exn),
    photos_api_params env p = Raise e ->
    exists msg,
      e = ValueError msg
      /\ run env net (ListProjectPhotos p) = (Returned ("Error: " ++ msg), []).
Proof.
  intros env net p e H.
  assert (Hv : exists msg, e = ValueError msg).
  { unfold photos_api_params in H.
    destruct (add_date env "start_date" _ _) as [p1 | e1] eqn:E1.
    - cbn [rbind] in H.
      destruct (add_date env "end_date" _ p1) as [p2 | e2] eqn:E2.
      + discriminate H.
      + apply Raise_inj in H. subst e2.
        exact (add_date_raises_ValueError _ _ _ _ _ E2).
    - apply Raise_inj in H. subst e1.
      exact (add_date_raises_ValueError _ _ _ _ _ E1). }
  destruct Hv as [msg ->]. exists msg. split; [reflexivity |].
  unfold run. cbn [run_tool]. rewrite photos_tool_run, H. reflexivity.
Qed.

Lemma bad_date_sends_nothing_witness :
  exists msg,
    ValueError "Invalid isoformat string: 'foo'" = ValueError msg
    /\ run env_utc (net_ok (JList [])) (ListProjectPhotos photos_bad_date)
       = (Returned ("Error: " ++ msg), []).
Proof.
  exact (bad_date_sends_nothing env_utc (net_ok (JList [])) photos_bad_date
           (ValueError "Invalid isoformat string: 'foo'") eq_refl).
Defined.

Lemma add_date_zoned (env1 env2 : Env) (key : string) (d : option string)
    (ps : list (string * json)) :
  carries_offset d -> add_date env1 key d ps = add_date env2 key d ps.
Proof.
  intros H. unfold add_date.
  destruct d as [s |]; [| reflexivity].
  destruct (String.eqb s EmptyString) eqn:Es; [reflexivity |].
  destruct H as (s' & dt & o & Hs & Hdt & Ho); [simpl; now rewrite Es |].
  apply Some_inj in Hs. subst s'. rewrite Hdt. cbn [rbind].
  unfold timestamp. now rewrite Ho.
Qed.

(** X23.  Date filters that carry their own offset (a trailing Z, a
    [+HH:MM]) give the same query whatever time zone the process runs in;
    only dates without one depend on it. *)
Theorem zoned_dates_ignore_local_zone :
  forall (env1 env2 : Env) (p : ListProjectPhotosInput.t),
    carries_offset (ListProjectPhotosInput.start_date p) ->
    carries_offset (ListProjectPhotosInput.end_date p) ->
    photos_api_params env1 p = photos_api_params env2 p.
Proof.
  intros env1 env2 p Hs He. unfold photos_api_params.
  rewrite (add_date_zoned env1 env2 "start_date" _ _ Hs).
  destruct (add_date env2 "start_date" _ _) as [p1 | e]; [| reflexivity].
  cbn [rbind].
  now rewrite (add_date_zoned env1 env2 "end_date" _ p1 He).
Qed.

Lemma zoned_dates_ignore_local_zone_witness :
  photos_api_params env_eastern photos_from_jan15_utc
  = photos_api_params env_utc photos_from_jan15_utc.
Proof.
  refine (zoned_dates_ignore_local_zone env_eastern env_utc photos_from_jan15_utc _ _).
  - intros _. exists "2025-01-15T00:00:00Z".
    exists (mk_datetime 2025 1 15 0 0 0 (Some 0)), 0.
    repeat split; reflexivity.
  - intros H. discriminate H.
Defined.

Lemma lookup_add_filter (k key : string) (v : option string)
    (ps : list (string * json)) :
  lookup k (add_filter key v ps)
  = if String.eqb k key
    then match filter_param v with
         | Some x => Some x
         | None => lookup k ps
         end
    else lookup k ps.
Proof.
  unfold add_filter, filter_param.
  destruct (String.eqb k key) eqn:E.
  - apply String.eqb_eq in E. subst key.
    destruct v as [s |]; [| reflexivity].
    destruct (String.eqb s EmptyString); [reflexivity |].
    apply lookup_dict_set_same.
  - now apply lookup_add_filter_other.
Qed.

Lemma lookup_add_date_not_given (env : Env) (k key : string) (d : option string)
    (ps ps' : list (string * json)) :
  add_date env key d ps = Ok ps' ->
  String.eqb k key = false \/ date_given d = false ->
  lookup k ps' = lookup k ps.
Proof.
  intros H [Hk | Hd].
  - exact (lookup_add_date_other env k key d ps ps' Hk H).
  - unfold add_date in H. destruct d as [s |].
    + simpl in Hd. destruct (String.eqb s EmptyString); [| discriminate Hd].
      apply Ok_inj in H. now subst ps'.
    + apply Ok_inj in H. now subst ps'.
Qed.

Lemma mem_false_cons (k x : string) (l : list string) :
  mem k (x :: l) = false -> String.eqb k x = false /\ mem k l = false.
Proof.
  unfold mem. simpl. intros H. now apply orb_false_elim in H.
Qed.

(** X24.  The query [cc_list_project_photos] builds always holds the page
    and the page size; it holds "user_ids[]" and "tag_ids[]" exactly for the
    filters that are given and not empty, with their values unchanged; it
    holds no date that was not given, and no name besides these six. *)
Theorem photos_query_carries_filters :
  forall (env : Env) (p : ListProjectPhotosInput.t) (ps : list (string * json)),
    photos_api_params env p = Ok ps ->
    lookup "page" ps = Some (JInt (ListProjectPhotosInput.page p))
    /\ lookup "per_page" ps = Some (JInt (ListProjectPhotosInput.per_page p))
    /\ lookup "user_ids[]" ps = filter_param (ListProjectPhotosInput.user_id p)
    /\ lookup "tag_ids[]" ps = filter_param (ListProjectPhotosInput.tag_id p)
    /\ (date_given (ListProjectPhotosInput.start_date p) = false ->
        lookup "start_date" ps = None)
    /\ (date_given (ListProjectPhotosInput.end_date p) = false ->
        lookup "end_date" ps = None)
    /\ (forall k, mem k photo_query_names = false -> lookup k ps = None).
Proof.
  intros env p ps H. unfold photos_api_params in H.
  destruct (add_date env "start_date" _ _) as [p1 | e] eqn:E1; [| discriminate H].
  cbn [rbind] in H.
  destruct (add_date env "end_date" _ p1) as [p2 | e] eqn:E2; [| discriminate H].
  cbn [rbind] in H. apply Ok_inj in H. subst ps.
  assert (L1 : forall k, String.eqb k "start_date" = false
                         \/ date_given (ListProjectPhotosInput.start_date p) = false ->
                         lookup k p1
                         = lookup k [("page", JInt (ListProjectPhotosInput.page p));
                                     ("per_page",
                                      JInt (ListProjectPhotosInput.per_page p))])
    by (intros k Hk; exact (lookup_add_date_not_given env k _ _ _ _ E1 Hk)).
  assert (L2 : forall k, String.eqb k "end_date" = false
                         \/ date_given (ListProjectPhotosInput.end_date p) = false ->
                         lookup k p2 = lookup k p1)
    by (intros k Hk; exact (lookup_add_date_not_given env k _ _ _ _ E2 Hk)).
  repeat split.
  - rewrite !lookup_add_filter. cbn [String.eqb Ascii.eqb Bool.eqb].
    rewrite L2, L1 by (left; reflexivity). reflexivity.
  - rewrite !lookup_add_filter. cbn [String.eqb Ascii.eqb Bool.eqb].
    rewrite L2, L1 by (left; reflexivity). reflexivity.
  - rewrite !lookup_add_filter. cbn [String.eqb Ascii.eqb Bool.eqb].
    rewrite L2, L1 by (left; reflexivity).
    now destruct (filter_param (ListProjectPhotosInput.user_id p)).
  - rewrite !lookup_add_filter. cbn [String.eqb Ascii.eqb Bool.eqb].
    rewrite L2, L1 by (left; reflexivity).
    now destruct (filter_param (ListProjectPhotosInput.tag_id p)).
  - intros Hd. rewrite !lookup_add_filter. cbn [String.eqb Ascii.eqb Bool.eqb].
    rewrite L2 by (left; reflexivity). rewrite L1 by (right; exact Hd). reflexivity.
  - intros Hd. rewrite !lookup_add_filter. cbn [String.eqb Ascii.eqb Bool.eqb].
    rewrite L2 by (right; exact Hd). rewrite L1 by (left; reflexivity). reflexivity.
  - intros k Hk. unfold photo_query_names in Hk.
    apply mem_false_cons in Hk. destruct Hk as [K1 Hk].
    apply mem_false_cons in Hk. destruct Hk as [K2 Hk].
    apply mem_false_cons in Hk. destruct Hk as [K3 Hk].
    apply mem_false_cons in Hk. destruct Hk as [K4 Hk].
    apply mem_false_cons in Hk. destruct Hk as [K5 Hk].
    apply mem_false_cons in Hk. destruct Hk as [K6 _].
    rewrite !lookup_add_filter, K5, K6.
    rewrite L2 by (left; exact K4). rewrite L1 by (left; exact K3).
    simpl. now rewrite K1, K2.
Qed.

Lemma photos_query_carries_filters_witness :
  lookup "user_ids[]" [("page", JInt 2); ("per_page", JInt 50); ("user_ids[]", JStr "u7")]
  = filter_param (ListProjectPhotosInput.user_id photos_by_user)
  /\ lookup "end_date" [("page", JInt 2); ("per_page", JInt 50); ("user_ids[]", JStr "u7")]
     = None.
Proof.
  pose proof (photos_query_carries_filters env_eastern photos_by_user
                [("page", JInt 2); ("per_page", JInt 50); ("user_ids[]", JStr "u7")]
                eq_refl) as H.
  split.
  - exact (proj1 (proj2 (proj2 H))).
  - exact (proj1 (proj2 (proj2 (proj2 (proj2 (proj2 H))))) eq_refl).
Defined.

(** ** Listings, requests and payloads *)

Lemma rmap_raises {A B : Type} (f : A -> result B) (l : list A) :
  (exists x e, In x l /\ f x = Raise e) -> exists e, rmap f l = Raise e.
Proof.
  induction l as [|a r IH]; intros (x & e & Hin & Hx); [contradiction |].
  simpl. destruct Hin as [<- | Hin].
  - rewrite Hx. eexists. reflexivity.
  - destruct (f a) as [b | e']; [| eexists; reflexivity]. cbn [rbind].
    destruct IH as [e'' He]; [now exists x, e |].
    rewrite He. eexists. reflexivity.
Qed.

(** X25.  A listing is all or nothing: when one item of the answer cannot
    be formatted, the tool returns an error text and none of the items that
    could be. *)
Theorem one_bad_item_fails_listing :
  forall (env : Env) (net : Net) (c : call) (req : request) (status : Z)
         (text : string) (l : list json) (f : json -> result string)
         (x : json) (e : exn),
    snd (run env net c) = [req] ->
    net req = Response status text (JsonBody (JList l)) ->
    200 <= status <= 299 ->
    item_text c = Some f ->
    In x l ->
    f x = Raise e ->
    exists e' rest,
      rmap f l = Raise e'
      /\ fst (run env net c) = Returned (_handle_api_error e')
      /\ _handle_api_error e' = "Error: " ++ rest.
Proof.
  intros env net c req status text l f x e Hlog Hnet Hrange Hf Hin Hx.
  destruct (rmap_raises f l) as [e' He]; [now exists x, e |].
  destruct (handler_prefix e') as [rest Hrest].
  exists e', rest. split; [exact He |]. split; [| exact Hrest].
  destruct l as [|y r]; [contradiction |].
  revert Hlog.
  destruct c; try discriminate Hf; cbn [item_text] in Hf; apply Some_inj in Hf;
    subst f; open_tool;
    try (destruct (photos_api_params env p); [| intros Hlog; discriminate Hlog]);
    intros Hlog; with_answer Hlog Hnet Hrange;
    try unfold search_projects_text; try unfold project_photos_text;
    cbv zeta; cbn [truthy negb py_len py_iter rbind]; rewrite He; reflexivity.
Qed.

Lemma one_bad_item_fails_listing_witness :
  exists e' rest,
    rmap comment_line comments_one_bad = Raise e'
    /\ fst (run env_utc (net_ok (JList comments_one_bad))
              (ListProjectComments comments_of_42))
       = Returned (_handle_api_error e')
    /\ _handle_api_error e' = "Error: " ++ rest.
Proof.
  refine (one_bad_item_fails_listing env_utc (net_ok (JList comments_one_bad))
            (ListProjectComments comments_of_42) request_comments_of_42
            200 "(json)" comments_one_bad comment_line
            (JDict [("creator_name", JStr "Bob"); ("content", JStr "late");
                    ("created_at", JStr "2025-01-15")])
            (TypeError "'str' object cannot be interpreted as an integer")
            eq_refl eq_refl _ eq_refl _ eq_refl).
  - split; discriminate.
  - right. left. reflexivity.
Defined.

(** X26.  With a token, a call sends exactly one request, and which
    request it sends does not depend on the service; the only exception is
    photo listing with a date that does not parse. *)
Theorem with_token_exactly_one_request :
  forall (env : Env) (c : call),
    API_TOKEN env <> EmptyString ->
    (forall p, c = ListProjectPhotos p ->
               exists ps, photos_api_params env p = Ok ps) ->
    exists req, forall net : Net, snd (run env net c) = [req].
Proof.
  intros env c Ht Hp.
  destruct (headers_with_token env Ht) as [h Hh].
  destruct c;
    try (eexists; intros net; open_tool; rewrite Hh; reflexivity).
  destruct (Hp p eq_refl) as [ps Hps].
  eexists. intros net. open_tool. rewrite Hps, Hh. reflexivity.
Qed.

Lemma with_token_exactly_one_request_witness :
  exists req, forall net : Net,
      snd (run env_utc net (GetProject (GetProjectInput.mk "42"))) = [req].
Proof.
  refine (with_token_exactly_one_request env_utc (GetProject (GetProjectInput.mk "42"))
            _ _).
  - discriminate.
  - intros p H. discriminate H.
Defined.






(** X28.  The confirmation of a comment quotes the comment the service
    answers with, not the text that was sent: author and content are read
    from the answer, with "Unknown" and the empty text for an answer that
    lacks them, and a project comment without "created_at" is dated
    "N/A". *)
Theorem comment_confirmation_quotes_answer :
  forall (env : Env) (net : Net) (c : call) (req : request)
         (status : Z) (text : string) (kv : list (string * json)),
    snd (run env net c) = [req] ->
    net req = Response status text (JsonBody (JDict kv)) ->
    200 <= status <= 299 ->
    (forall p, c = AddPhotoComment p ->
               fst (run env net c)
               = Returned ("Comment added to photo " ++ AddPhotoCommentInput.photo_id p
                           ++ " by " ++ answer_field kv "creator_name" (JStr "Unknown")
                           ++ ":" ++ nl ++ dquote
                           ++ answer_field kv "content" (JStr EmptyString) ++ dquote))
    /\ (forall p, c = AddProjectComment p ->
                  lookup "created_at" kv = None ->
                  fst (run env net c)
                  = Returned ("Comment added to project "
                              ++ AddProjectCommentInput.project_id p
                              ++ " by " ++ answer_field kv "creator_name" (JStr "Unknown")
                              ++ " at N/A:" ++ nl ++ dquote
                              ++ answer_field kv "content" (JStr EmptyString) ++ dquote)).
Proof.
  intros env net c req status text kv Hlog Hnet Hrange.
  split.
  - intros p ->. revert Hlog. open_tool. intros Hlog. with_answer Hlog Hnet Hrange.
    cbn [py_get]. unfold answer_field.
    destruct (lookup "creator_name" kv), (lookup "content" kv); reflexivity.
  - intros p -> Hc. revert Hlog. open_tool. intros Hlog. with_answer Hlog Hnet Hrange.
    cbn [py_get]. unfold answer_field. rewrite Hc.
    destruct (lookup "creator_name" kv), (lookup "content" kv); reflexivity.
Qed.

Lemma comment_confirmation_quotes_answer_witness :
  fst (run env_utc (net_ok (JDict stored_comment)) (AddPhotoComment comment_on_photo_77))
  = Returned ("Comment added to photo "
              ++ AddPhotoCommentInput.photo_id comment_on_photo_77
              ++ " by " ++ answer_field stored_comment "creator_name" (JStr "Unknown")
              ++ ":" ++ nl ++ dquote
              ++ answer_field stored_comment "content" (JStr EmptyString) ++ dquote).
Proof.
  refine (proj1 (comment_confirmation_quotes_answer env_utc
                   (net_ok (JDict stored_comment)) (AddPhotoComment comment_on_photo_77)
                   request_comment_on_photo_77 200 "(json)" stored_comment
                   eq_refl eq_refl _) comment_on_photo_77 eq_refl).
  split; discriminate.
Defined.
